(** * go-ant: the ANT session driver ([ant.go])

    A shallow embedding of the driver: the command layer that builds and
    enqueues outbound messages (with the burst-transfer sequencing), the
    frame decoder ([decodeLoop]) and the two goroutines of a session
    ([loop], [decodeLoop]) together with [Stop], as a labelled transition
    system over unbuffered channels.

    Bytes ([uint8]) are integers in [0, 256); every [uint8] operation of
    the source has its wrap-around written out with [wrap8]. *)

From stdpp Require Import base decidable option list numbers.

Local Open Scope Z_scope.

(** ** Machine integers and slices *)

(** A [uint8] result: Go arithmetic on [uint8] wraps modulo 256. *)
Definition wrap8 (z : Z) : Z := z mod 256.

(** [len(s)] as a Go [int]. *)
Definition len (s : list Z) : Z := Z.of_nat (length s).

(** [make([]byte, n)]: [n] zero bytes. *)
Definition make (n : Z) : list Z := replicate (Z.to_nat n) 0.

(** [copy(dst, src)]: overwrites the first [min(len dst, len src)] elements
    of [dst]; the result is [dst] after the call. *)
Definition copy (dst src : list Z) : list Z :=
  take (length dst) src ++ drop (length src) dst.

(** [binary.LittleEndian.PutUint16(b, v)] on a two-byte destination. *)
Definition PutUint16 (v : Z) : list Z := [wrap8 v; wrap8 (Z.shiftr v 8)].

(** ** Panics

    The values a goroutine of the driver can panic with. *)
Inductive panic : Type :=
  | PanicDataLength (n : Z)        (* "Data length should be 8 not n" *)
  | PanicSearchWaveform            (* "The search waveform to be set. ..." *)
  | PanicBurstLength               (* "Data length should be multiple of 8 not " *)
  | PanicSliceBounds (lo hi : Z)   (* runtime error: slice bounds out of range [lo:hi] *)
  | PanicIndex (i : Z) (n : Z)     (* runtime error: index out of range [i] with length n *)
  | PanicWrite.                    (* the driver's write error, re-raised by loop *)

(** [s[lo:hi]] on a slice whose capacity equals its length: Go panics
    unless [0 <= lo <= hi <= cap(s)]. *)
Definition slice (s : list Z) (lo hi : Z) : panic + list Z :=
  if decide (0 <= lo /\ lo <= hi /\ hi <= len s)
  then inr (take (Z.to_nat (hi - lo)) (drop (Z.to_nat lo) s))
  else inl (PanicSliceBounds lo hi).

(** [s[i] = v]: Go panics when [i] is out of range. *)
Definition store (s : list Z) (i : Z) (v : Z) : panic + list Z :=
  if decide (0 <= i /\ i < len s)
  then inr (<[Z.to_nat i := v]> s)
  else inl (PanicIndex i (len s)).

(** ** Messages and the codec *)

(** Modelled from the spec: the [Message] struct and [NewMessage] live in
    the codec file of the package, which is not among the sources here. A
    Message is a message-id (one byte) and a payload (a byte sequence);
    [NewMessage id data] builds it. *)
Record Message : Type := NewMessage { Type_ : Z; Data : list Z }.

(** The constants and the frame codec that [ant.go] takes from the rest of
    the package: the sync byte, the message ids used below, [Decode]
    (returning [None] for a non-nil error) and [Encode]. *)
Class Codec : Type := {
  MESG_TX_SYNC : Z;
  MESG_BROADCAST_DATA_ID : Z;
  MESG_ACKNOWLEDGED_DATA_ID : Z;
  MESG_BURST_DATA_ID : Z;
  MESG_RADIO_TX_POWER_ID : Z;
  Decode : list Z -> option Message;
  Encode : Message -> list Z
}.

(** ** The command layer

    A command runs in the caller's goroutine: it sends messages on one of
    the two outbound channels and returns, or panics.  Between two sends a
    command neither receives anything nor reads shared state, so what it
    does is fixed by its arguments: [cmd A] is the program of the call, the
    sends it attempts, in order, and how it ends once the last of them has
    completed.  Each send is an unbuffered channel send: the call reaches a
    send of the list only when the sends before it were received, and
    whether it gets past it is not up to the call.  [chan_send] below is
    the send as a step of this program; what becomes of the sends of a
    call, and so where the call really ends, is given by [perform]. *)

Inductive outbound : Type := ChWrite | ChWriteInTimeslot.

Inductive outcome (A : Type) : Type :=
  | Returned (a : A)
  | Panicked (p : panic).
Arguments Returned {A} a.
Arguments Panicked {A} p.

Definition cmd (A : Type) : Type := list (outbound * Message) * outcome A.

Definition cmd_ret {A} (a : A) : cmd A := ([], Returned a).

Definition cmd_bind {A B} (c : cmd A) (k : A -> cmd B) : cmd B :=
  match c with
  | (s, Returned a) => let '(s', r) := k a in (s ++ s', r)
  | (s, Panicked p) => (s, Panicked p)
  end.

Definition cmd_panic {A} (p : panic) : cmd A := ([], Panicked p).

Definition chan_send (c : outbound) (m : Message) : cmd unit :=
  ([(c, m)], Returned tt).

Declare Scope cmd_scope.
Delimit Scope cmd_scope with cmd.
Notation "c1 ;; c2" := (cmd_bind c1 (fun _ => c2))
  (at level 100, c2 at level 200, right associativity) : cmd_scope.
Local Open Scope cmd_scope.

(** The sends of a call and its end when every send is received, and the
    messages it sends on one channel. *)
Definition sent {A} (c : cmd A) : list (outbound * Message) := fst c.
Definition result {A} (c : cmd A) : outcome A := snd c.

(** How many sends a call has. *)
Definition sends {A} (c : cmd A) : Z := Z.of_nat (length (sent c)).

Definition outbound_eqb (a b : outbound) : bool :=
  match a, b with
  | ChWrite, ChWrite | ChWriteInTimeslot, ChWriteInTimeslot => true
  | _, _ => false
  end.

Definition sent_on {A} (ch : outbound) (c : cmd A) : list Message :=
  map snd (filter (fun e => Is_true (outbound_eqb (fst e) ch)) (sent c)).

(** [for i := uint8(0); i < n; i++ { body }] with [n] a [uint8]: [i] runs
    through [0 .. n-1] and never wraps, since [i < n <= 255]. *)
Fixpoint for_range (idx : list Z) (body : Z -> cmd unit) : cmd unit :=
  match idx with
  | [] => cmd_ret tt
  | i :: idx' => body i ;; for_range idx' body
  end.

Section Commands.
Context `{Codec}.

Definition SetSearchWaveform (channel searchWaveform : Z) : cmd unit :=
  if decide (searchWaveform <> 316 /\ searchWaveform <> 97)
  then cmd_panic PanicSearchWaveform
  else
    let payload := channel :: PutUint16 searchWaveform in
    chan_send ChWrite (NewMessage MESG_RADIO_TX_POWER_ID payload).

Definition SendBroadcastData (channel : Z) (data : list Z) : cmd unit :=
  if decide (len data <> 8)
  then cmd_panic (PanicDataLength (len data))
  else
    let payload := channel :: copy (make 8) data in
    chan_send ChWrite (NewMessage MESG_BROADCAST_DATA_ID payload).

Definition SendAcknowledgedData (channel : Z) (data : list Z) : cmd unit :=
  if decide (len data <> 8)
  then cmd_panic (PanicDataLength (len data))
  else
    let payload := channel :: copy (make 8) data in
    chan_send ChWriteInTimeslot (NewMessage MESG_ACKNOWLEDGED_DATA_ID payload).

Definition SendBurstTransferPacket (channelSeq : Z) (data : list Z) : cmd unit :=
  if decide (len data <> 8)
  then cmd_panic (PanicDataLength (len data))
  else
    let payload := channelSeq :: copy (make 8) data in
    chan_send ChWriteInTimeslot (NewMessage MESG_BURST_DATA_ID payload).

(** The [sequence] of packet [i] out of [packets] (both [uint8]). *)
Definition burst_sequence (packets i : Z) : Z :=
  let sequence := wrap8 (wrap8 (i - 1) mod 3 + 1) in
  if decide (i = 0) then 0
  else if decide (i = wrap8 (packets - 1)) then Z.lor sequence 4
  else sequence.

Definition burst_channelSeq (channel packets i : Z) : Z :=
  Z.lor channel (wrap8 (Z.shiftl (burst_sequence packets i) 5)).

(** The body of the loop of [SendBurstTransfer]; the slice bounds
    [i*8] and [i*8+8] are [uint8] expressions. *)
Definition burst_body (channel : Z) (data : list Z) (packets i : Z) : cmd unit :=
  let channelSeq := burst_channelSeq channel packets i in
  let lo := wrap8 (i * 8) in
  let hi := wrap8 (wrap8 (i * 8) + 8) in
  match slice data lo hi with
  | inl p => cmd_panic p
  | inr pkt => SendBurstTransferPacket channelSeq pkt
  end.

Definition SendBurstTransfer (channel : Z) (data : list Z) : cmd unit :=
  if decide (len data mod 8 <> 0)
  then cmd_panic PanicBurstLength
  else
    let packets := wrap8 (len data / 8) in
    for_range (seqZ 0 packets) (burst_body channel data packets).

End Commands.

(** The packet [data[i*8 : i*8+8]] for an index below 31, where the
    [uint8] bounds do not wrap. *)
Definition packet (data : list Z) (i : Z) : list Z :=
  take 8 (drop (Z.to_nat (i * 8)) data).

(** The sequence field and the channel-sequence byte of packet [i] out of
    [N] as the specification words them: 0 for the first packet,
    [((i-1) mod 3) + 1] after it, with the terminal flag [0b100] on the
    last packet. *)
Definition spec_sequence (N i : Z) : Z :=
  let sequence := if decide (i = 0) then 0 else (i - 1) mod 3 + 1 in
  if decide (i = N - 1) then Z.lor sequence 4 else sequence.

Definition spec_channelSeq (channel N i : Z) : Z :=
  Z.lor channel (Z.shiftl (spec_sequence N i) 5).

(** The channel-sequence bytes of the burst packets a call sent. *)
Definition channelSeqs (c : cmd unit) : list Z :=
  map (fun m => default 0 (head (Data m))) (sent_on ChWriteInTimeslot c).

(** ** What becomes of the sends

    [dev.write] and [dev.writeInTimeslot] are unbuffered.  A send on such a
    channel completes when a receiver takes the message; it panics (send on
    closed channel) when the channel is closed, before the send or while
    the sender is blocked in it; otherwise the sender stays blocked.
    [perform c env] runs the call [c] where [env n] is what becomes of its
    send number [n]: it gives the sends that completed and how the call
    ended.  In [ant.go] the only receive on an outbound channel is
    [case d := <-dev.write] in [loop]: no send on [dev.writeInTimeslot] is
    ever taken. *)

Inductive fate : Type := Taken | ChannelClosed | NeverTaken.

Inductive ending : Type :=
  | Ended (r : outcome unit)                     (* every send completed *)
  | SendOnClosed (c : outbound) (m : Message)    (* panic: send on closed channel *)
  | BlockedIn (c : outbound) (m : Message).      (* the call never gets past this send *)

Fixpoint perform_sends (script : list (outbound * Message)) (r : outcome unit)
    (env : nat -> fate) : list (outbound * Message) * ending :=
  match script with
  | [] => ([], Ended r)
  | (c, m) :: script' =>
      match env 0%nat with
      | Taken =>
          let '(done, e) := perform_sends script' r (fun n => env (S n)) in
          ((c, m) :: done, e)
      | ChannelClosed => ([], SendOnClosed c m)
      | NeverTaken => ([], BlockedIn c m)
      end
  end.

Definition perform (c : cmd unit) (env : nat -> fate) : list (outbound * Message) * ending :=
  perform_sends (sent c) (result c) env.

(** The sends of a call that completed, and how the call ended. *)
Definition completed (c : cmd unit) (env : nat -> fate) : list (outbound * Message) :=
  fst (perform c env).

Definition ends (c : cmd unit) (env : nat -> fate) : ending := snd (perform c env).

(** Every send is taken; no send is taken. *)
Definition all_taken : nat -> fate := fun _ => Taken.
Definition no_receiver : nat -> fate := fun _ => NeverTaken.

(** ** The frame decoder ([decodeLoop])

    The goroutine blocks only on [<-dev.decoder].  [dec_pc] names the three
    receives of the loop; [dec_recv] is the code run from one receive to
    the next, given the byte received. *)

Inductive dec_pc : Type :=
  | SeekingSync                                   (* sync, ok := <-dev.decoder *)
  | ReadingLength                                 (* length, ok := <-dev.decoder *)
  | Assembling (length : Z) (buf : list Z) (i : Z). (* buf[i], ok = <-dev.decoder *)

(** What the decoder does between two receives that is visible outside
    it: the call [Decode(buf)] and the non-blocking send [dev.read <- msg]. *)
Inductive dec_event : Type :=
  | Validate (buf : list Z)
  | Offer (msg : Message).

Section Decoder.
Context `{Codec}.

(** From [Decode(buf)] to the end of the loop body. *)
Definition validate (buf : list Z) : list dec_event * dec_pc :=
  match Decode buf with
  | None => ([Validate buf], SeekingSync)
  | Some msg => ([Validate buf; Offer msg], SeekingSync)
  end.

(** The head of [for i := 2; i < int(length+4); i++]: [length+4] is a
    [byte] expression. *)
Definition assemble (length : Z) (buf : list Z) (i : Z) : list dec_event * dec_pc :=
  if decide (i < wrap8 (length + 4))
  then ([], Assembling length buf i)
  else validate buf.

Definition dec_recv (pc : dec_pc) (b : Z) : list dec_event * (panic + dec_pc) :=
  match pc with
  | SeekingSync =>
      if decide (b <> MESG_TX_SYNC)
      then ([], inr SeekingSync)
      else ([], inr ReadingLength)
  | ReadingLength =>
      let length := b in
      let buf := make (wrap8 (length + 4)) in
      match store buf 0 MESG_TX_SYNC with
      | inl p => ([], inl p)
      | inr buf =>
          match store buf 1 length with
          | inl p => ([], inl p)
          | inr buf => let '(ev, pc') := assemble length buf 2 in (ev, inr pc')
          end
      end
  | Assembling length buf i =>
      match store buf i b with
      | inl p => ([], inl p)
      | inr buf => let '(ev, pc') := assemble length buf (i + 1) in (ev, inr pc')
      end
  end.

(** The decoder run on a byte channel that delivers [stream] and is then
    closed: at the closure every receive yields [!ok] and the loop
    returns. *)
Fixpoint decode_from (pc : dec_pc) (stream : list Z) : list dec_event * outcome unit :=
  match stream with
  | [] => ([], Returned tt)
  | b :: rest =>
      match dec_recv pc b with
      | (ev, inl p) => (ev, Panicked p)
      | (ev, inr pc') => let '(evs, r) := decode_from pc' rest in (ev ++ evs, r)
      end
  end.

Definition decodeLoop (stream : list Z) : list dec_event * outcome unit :=
  decode_from SeekingSync stream.

End Decoder.

(** The frames handed to the codec and the messages offered on [dev.read]. *)
Definition validated (evs : list dec_event) : list (list Z) :=
  omap (fun e => match e with Validate buf => Some buf | _ => None end) evs.

Definition offered (evs : list dec_event) : list Message :=
  omap (fun e => match e with Offer m => Some m | _ => None end) evs.

(** [select { case dev.read <- msg: default: }]: the k-th offer is received
    when a receiver is waiting on [dev.read] at that moment ([ready]), and
    dropped otherwise (also when [ready] is exhausted). *)
Fixpoint deliver (ready : list bool) (offers : list Message) : list Message :=
  match offers, ready with
  | m :: ms, r :: rs => (if r then [m] else []) ++ deliver rs ms
  | _, _ => []
  end.

(** ** A session: [Stop], [loop] and [decodeLoop] over unbuffered channels

    The state of a started session is the program counter of each of the
    three goroutines involved, the state of the channels, and what has been
    observed so far at the driver and at [dev.read].  A step is one
    communication (an unbuffered send meeting its receive), one driver
    call, or one deferred call. *)

(** [Stop]: before the call, blocked in [dev.stopper <- struct{}{}], blocked
    in the first and in the second [<-dev.done], returned. *)
Inductive stop_pc : Type :=
  | StopNotCalled | StopSending | StopWaitFirst | StopWaitSecond | StopReturned.

(** The deferred calls of [loop], in the order they run (last deferred
    first; the deferred [log.Println] is left out). *)
Inductive loop_defer : Type :=
  | CloseWriteInTimeslot | CloseWrite | CloseDecoder | DriverClose | LoopDone.

(** [loop]: at the [select]; inside [for _, v := range dev.buffer[:i]] with
    the bytes still to send; running its deferred calls (while panicking
    when [p] is a panic value); gone. *)
Inductive loop_pc : Type :=
  | LoopSelect
  | LoopForward (bs : list Z)
  | LoopUnwind (d : loop_defer) (p : option panic)
  | LoopExited.

(** The deferred calls of [decodeLoop], in the order they run. *)
Inductive decodeLoop_defer : Type := CloseRead | DecodeLoopDone.

Inductive decodeLoop_pc : Type :=
  | DecodeRecv (pc : dec_pc)
  | DecodeUnwind (d : decodeLoop_defer) (p : option panic)
  | DecodeExited.

Record session : Type := Session {
  pc_Stop : stop_pc;                          (* the caller of [Stop] *)
  pc_loop : loop_pc;                          (* the goroutine [loop] *)
  pc_decodeLoop : decodeLoop_pc;              (* the goroutine [decodeLoop] *)
  crashed : bool;                             (* an unrecovered panic ended the process *)
  driver_open : bool;                         (* [Open] was called, [Close] not yet *)
  write_q : list Message;                     (* goroutines blocked in [dev.write <- m], oldest first *)
  writeInTimeslot_q : list Message;           (* goroutines blocked in [dev.writeInTimeslot <- m] *)
  write_closed : bool;                        (* [close(dev.write)] ran *)
  writeInTimeslot_closed : bool;              (* [close(dev.writeInTimeslot)] ran *)
  decoder_closed : bool;                      (* [close(dev.decoder)] ran *)
  read_closed : bool;                         (* [close(dev.read)] ran *)
  written : list (list Z);                    (* the arguments of [driver.Write], oldest first *)
  drained : list Message;                     (* the messages [loop] received from [dev.write] *)
  inbound : list Message;                     (* the messages received from [dev.read] *)
  stop_signals : nat;                         (* sends on [dev.stopper] that completed *)
  done_signals : nat                          (* sends on [dev.done] that completed *)
}.

(** Field updates. *)
Definition set_pc_Stop (v : stop_pc) (s : session) : session :=
  {| pc_Stop := v; pc_loop := pc_loop s; pc_decodeLoop := pc_decodeLoop s;
  crashed := crashed s; driver_open := driver_open s; write_q := write_q s;
  writeInTimeslot_q := writeInTimeslot_q s; write_closed := write_closed s;
  writeInTimeslot_closed := writeInTimeslot_closed s; decoder_closed :=
  decoder_closed s; read_closed := read_closed s; written := written s;
  drained := drained s; inbound := inbound s; stop_signals := stop_signals s;
  done_signals := done_signals s |}.
Definition set_pc_loop (v : loop_pc) (s : session) : session :=
  {| pc_Stop := pc_Stop s; pc_loop := v; pc_decodeLoop := pc_decodeLoop s;
  crashed := crashed s; driver_open := driver_open s; write_q := write_q s;
  writeInTimeslot_q := writeInTimeslot_q s; write_closed := write_closed s;
  writeInTimeslot_closed := writeInTimeslot_closed s; decoder_closed :=
  decoder_closed s; read_closed := read_closed s; written := written s;
  drained := drained s; inbound := inbound s; stop_signals := stop_signals s;
  done_signals := done_signals s |}.
Definition set_pc_decodeLoop (v : decodeLoop_pc) (s : session) : session :=
  {| pc_Stop := pc_Stop s; pc_loop := pc_loop s; pc_decodeLoop := v; crashed
  := crashed s; driver_open := driver_open s; write_q := write_q s;
  writeInTimeslot_q := writeInTimeslot_q s; write_closed := write_closed s;
  writeInTimeslot_closed := writeInTimeslot_closed s; decoder_closed :=
  decoder_closed s; read_closed := read_closed s; written := written s;
  drained := drained s; inbound := inbound s; stop_signals := stop_signals s;
  done_signals := done_signals s |}.
Definition set_crashed (v : bool) (s : session) : session :=
  {| pc_Stop := pc_Stop s; pc_loop := pc_loop s; pc_decodeLoop :=
  pc_decodeLoop s; crashed := v; driver_open := driver_open s; write_q :=
  write_q s; writeInTimeslot_q := writeInTimeslot_q s; write_closed :=
  write_closed s; writeInTimeslot_closed := writeInTimeslot_closed s;
  decoder_closed := decoder_closed s; read_closed := read_closed s; written :=
  written s; drained := drained s; inbound := inbound s; stop_signals :=
  stop_signals s; done_signals := done_signals s |}.
Definition set_driver_open (v : bool) (s : session) : session :=
  {| pc_Stop := pc_Stop s; pc_loop := pc_loop s; pc_decodeLoop :=
  pc_decodeLoop s; crashed := crashed s; driver_open := v; write_q := write_q
  s; writeInTimeslot_q := writeInTimeslot_q s; write_closed := write_closed s;
  writeInTimeslot_closed := writeInTimeslot_closed s; decoder_closed :=
  decoder_closed s; read_closed := read_closed s; written := written s;
  drained := drained s; inbound := inbound s; stop_signals := stop_signals s;
  done_signals := done_signals s |}.
Definition set_write_q (v : list Message) (s : session) : session :=
  {| pc_Stop := pc_Stop s; pc_loop := pc_loop s; pc_decodeLoop :=
  pc_decodeLoop s; crashed := crashed s; driver_open := driver_open s; write_q
  := v; writeInTimeslot_q := writeInTimeslot_q s; write_closed := write_closed
  s; writeInTimeslot_closed := writeInTimeslot_closed s; decoder_closed :=
  decoder_closed s; read_closed := read_closed s; written := written s;
  drained := drained s; inbound := inbound s; stop_signals := stop_signals s;
  done_signals := done_signals s |}.
Definition set_writeInTimeslot_q (v : list Message) (s : session) : session :=
  {| pc_Stop := pc_Stop s; pc_loop := pc_loop s; pc_decodeLoop :=
  pc_decodeLoop s; crashed := crashed s; driver_open := driver_open s; write_q
  := write_q s; writeInTimeslot_q := v; write_closed := write_closed s;
  writeInTimeslot_closed := writeInTimeslot_closed s; decoder_closed :=
  decoder_closed s; read_closed := read_closed s; written := written s;
  drained := drained s; inbound := inbound s; stop_signals := stop_signals s;
  done_signals := done_signals s |}.
Definition set_write_closed (v : bool) (s : session) : session :=
  {| pc_Stop := pc_Stop s; pc_loop := pc_loop s; pc_decodeLoop :=
  pc_decodeLoop s; crashed := crashed s; driver_open := driver_open s; write_q
  := write_q s; writeInTimeslot_q := writeInTimeslot_q s; write_closed := v;
  writeInTimeslot_closed := writeInTimeslot_closed s; decoder_closed :=
  decoder_closed s; read_closed := read_closed s; written := written s;
  drained := drained s; inbound := inbound s; stop_signals := stop_signals s;
  done_signals := done_signals s |}.
Definition set_writeInTimeslot_closed (v : bool) (s : session) : session :=
  {| pc_Stop := pc_Stop s; pc_loop := pc_loop s; pc_decodeLoop :=
  pc_decodeLoop s; crashed := crashed s; driver_open := driver_open s; write_q
  := write_q s; writeInTimeslot_q := writeInTimeslot_q s; write_closed :=
  write_closed s; writeInTimeslot_closed := v; decoder_closed :=
  decoder_closed s; read_closed := read_closed s; written := written s;
  drained := drained s; inbound := inbound s; stop_signals := stop_signals s;
  done_signals := done_signals s |}.
Definition set_decoder_closed (v : bool) (s : session) : session :=
  {| pc_Stop := pc_Stop s; pc_loop := pc_loop s; pc_decodeLoop :=
  pc_decodeLoop s; crashed := crashed s; driver_open := driver_open s; write_q
  := write_q s; writeInTimeslot_q := writeInTimeslot_q s; write_closed :=
  write_closed s; writeInTimeslot_closed := writeInTimeslot_closed s;
  decoder_closed := v; read_closed := read_closed s; written := written s;
  drained := drained s; inbound := inbound s; stop_signals := stop_signals s;
  done_signals := done_signals s |}.
Definition set_read_closed (v : bool) (s : session) : session :=
  {| pc_Stop := pc_Stop s; pc_loop := pc_loop s; pc_decodeLoop :=
  pc_decodeLoop s; crashed := crashed s; driver_open := driver_open s; write_q
  := write_q s; writeInTimeslot_q := writeInTimeslot_q s; write_closed :=
  write_closed s; writeInTimeslot_closed := writeInTimeslot_closed s;
  decoder_closed := decoder_closed s; read_closed := v; written := written s;
  drained := drained s; inbound := inbound s; stop_signals := stop_signals s;
  done_signals := done_signals s |}.
Definition set_written (v : list (list Z)) (s : session) : session :=
  {| pc_Stop := pc_Stop s; pc_loop := pc_loop s; pc_decodeLoop :=
  pc_decodeLoop s; crashed := crashed s; driver_open := driver_open s; write_q
  := write_q s; writeInTimeslot_q := writeInTimeslot_q s; write_closed :=
  write_closed s; writeInTimeslot_closed := writeInTimeslot_closed s;
  decoder_closed := decoder_closed s; read_closed := read_closed s; written :=
  v; drained := drained s; inbound := inbound s; stop_signals := stop_signals
  s; done_signals := done_signals s |}.
Definition set_drained (v : list Message) (s : session) : session :=
  {| pc_Stop := pc_Stop s; pc_loop := pc_loop s; pc_decodeLoop :=
  pc_decodeLoop s; crashed := crashed s; driver_open := driver_open s; write_q
  := write_q s; writeInTimeslot_q := writeInTimeslot_q s; write_closed :=
  write_closed s; writeInTimeslot_closed := writeInTimeslot_closed s;
  decoder_closed := decoder_closed s; read_closed := read_closed s; written :=
  written s; drained := v; inbound := inbound s; stop_signals := stop_signals
  s; done_signals := done_signals s |}.
Definition set_inbound (v : list Message) (s : session) : session :=
  {| pc_Stop := pc_Stop s; pc_loop := pc_loop s; pc_decodeLoop :=
  pc_decodeLoop s; crashed := crashed s; driver_open := driver_open s; write_q
  := write_q s; writeInTimeslot_q := writeInTimeslot_q s; write_closed :=
  write_closed s; writeInTimeslot_closed := writeInTimeslot_closed s;
  decoder_closed := decoder_closed s; read_closed := read_closed s; written :=
  written s; drained := drained s; inbound := v; stop_signals := stop_signals
  s; done_signals := done_signals s |}.
Definition set_stop_signals (v : nat) (s : session) : session :=
  {| pc_Stop := pc_Stop s; pc_loop := pc_loop s; pc_decodeLoop :=
  pc_decodeLoop s; crashed := crashed s; driver_open := driver_open s; write_q
  := write_q s; writeInTimeslot_q := writeInTimeslot_q s; write_closed :=
  write_closed s; writeInTimeslot_closed := writeInTimeslot_closed s;
  decoder_closed := decoder_closed s; read_closed := read_closed s; written :=
  written s; drained := drained s; inbound := inbound s; stop_signals := v;
  done_signals := done_signals s |}.
Definition set_done_signals (v : nat) (s : session) : session :=
  {| pc_Stop := pc_Stop s; pc_loop := pc_loop s; pc_decodeLoop :=
  pc_decodeLoop s; crashed := crashed s; driver_open := driver_open s; write_q
  := write_q s; writeInTimeslot_q := writeInTimeslot_q s; write_closed :=
  write_closed s; writeInTimeslot_closed := writeInTimeslot_closed s;
  decoder_closed := decoder_closed s; read_closed := read_closed s; written :=
  written s; drained := drained s; inbound := inbound s; stop_signals :=
  stop_signals s; done_signals := v |}.

Inductive label : Type :=
  | CallStop                                (* Stop() is called *)
  | BlockOnWrite (m : Message)              (* a command reaches dev.write <- m *)
  | BlockOnWriteInTimeslot (m : Message)    (* ... dev.writeInTimeslot <- m *)
  | SelectStopper                           (* case <-dev.stopper *)
  | SelectWrite (m : Message) (ok : bool)   (* case d := <-dev.write, and whether Write succeeded *)
  | SelectDefault (r : option (list Z))     (* default: Read gave dev.buffer[:i], or an error *)
  | ForwardByte (v : Z) (ready : bool)      (* dev.decoder <- v; ready: a receiver waits on dev.read *)
  | LoopDeferred (d : loop_defer)
  | DecoderSeesClosed                       (* a receive on the closed dev.decoder *)
  | DecodeLoopDeferred (d : decodeLoop_defer).

(** The three branches of the [select] of [loop]. *)
Definition select_branch (l : label) : bool :=
  match l with
  | SelectStopper | SelectWrite _ _ | SelectDefault _ => true
  | _ => false
  end.

(** [<-dev.done] in [Stop]: the first receive, then the second. *)
Definition stop_recv_done (pc : stop_pc) : option stop_pc :=
  match pc with
  | StopWaitFirst => Some StopWaitSecond
  | StopWaitSecond => Some StopReturned
  | _ => None
  end.

(** The [range] loop over the bytes read: back at the [select] once all
    are sent. *)
Definition forward (bs : list Z) : loop_pc :=
  match bs with
  | [] => LoopSelect
  | _ => LoopForward bs
  end.

(** Closing a channel makes every goroutine blocked sending on it panic. *)
Definition senders_panic (q : list Message) : bool :=
  match q with
  | [] => false
  | _ => true
  end.

(** The messages that callers sent on each outbound channel and those
    that [loop] received from [dev.write], read off an execution. *)
Definition sent_on_write (l : label) : option Message :=
  match l with BlockOnWrite m => Some m | _ => None end.

Definition sent_on_writeInTimeslot (l : label) : option Message :=
  match l with BlockOnWriteInTimeslot m => Some m | _ => None end.

Definition received_from_write (l : label) : option Message :=
  match l with SelectWrite m _ => Some m | _ => None end.

(** How far [Stop] is. *)
Definition stop_rank (pc : stop_pc) : nat :=
  match pc with
  | StopNotCalled => 0
  | StopSending => 1
  | StopWaitFirst => 2
  | StopWaitSecond => 3
  | StopReturned => 4
  end%nat.

(** Whether a goroutine completed its send on [dev.done]. *)
Definition loop_exited (pc : loop_pc) : nat :=
  match pc with LoopExited => 1 | _ => 0 end%nat.

Definition decodeLoop_exited (pc : decodeLoop_pc) : nat :=
  match pc with DecodeExited => 1 | _ => 0 end%nat.

(** How far [loop] is through its deferred calls. *)
Definition loop_rank (pc : loop_pc) : nat :=
  match pc with
  | LoopSelect | LoopForward _ => 0
  | LoopUnwind CloseWriteInTimeslot _ => 1
  | LoopUnwind CloseWrite _ => 2
  | LoopUnwind CloseDecoder _ => 3
  | LoopUnwind DriverClose _ => 4
  | LoopUnwind LoopDone _ => 5
  | LoopExited => 6
  end%nat.

Section Session.
Context `{Codec}.

Definition after_recv (r : panic + dec_pc) : decodeLoop_pc :=
  match r with
  | inr pc => DecodeRecv pc
  | inl p => DecodeUnwind CloseRead (Some p)
  end.

Inductive step : session -> label -> session -> Prop :=
(* callers *)
| step_CallStop s :
    crashed s = false -> pc_Stop s = StopNotCalled ->
    step s CallStop (set_pc_Stop StopSending s)
| step_BlockOnWrite s m :
    crashed s = false ->
    step s (BlockOnWrite m)
      (if write_closed s then set_crashed true s
       else set_write_q (write_q s ++ [m]) s)
| step_BlockOnWriteInTimeslot s m :
    crashed s = false ->
    step s (BlockOnWriteInTimeslot m)
      (if writeInTimeslot_closed s then set_crashed true s
       else set_writeInTimeslot_q (writeInTimeslot_q s ++ [m]) s)
(* loop: the select. A case whose communication can proceed may be
   chosen; default runs only when none can. *)
| step_SelectStopper s :
    crashed s = false -> pc_loop s = LoopSelect -> pc_Stop s = StopSending ->
    step s SelectStopper
      (set_pc_loop (LoopUnwind CloseWriteInTimeslot None)
        (set_pc_Stop StopWaitFirst
          (set_stop_signals (S (stop_signals s)) s)))
| step_SelectWrite s m q ok :
    crashed s = false -> pc_loop s = LoopSelect -> write_q s = m :: q ->
    step s (SelectWrite m ok)
      (set_pc_loop
         (if ok then LoopSelect
          else LoopUnwind CloseWriteInTimeslot (Some PanicWrite))
        (set_write_q q
          (set_drained (drained s ++ [m])
            (set_written (written s ++ [Encode m]) s))))
| step_SelectDefault s r :
    crashed s = false -> pc_loop s = LoopSelect ->
    pc_Stop s <> StopSending -> write_q s = [] ->
    step s (SelectDefault r) (set_pc_loop (forward (default [] r)) s)
(* loop: dev.decoder <- v, received by decodeLoop *)
| step_ForwardByte s v bs pc ready :
    crashed s = false ->
    pc_loop s = LoopForward (v :: bs) -> pc_decodeLoop s = DecodeRecv pc ->
    step s (ForwardByte v ready)
      (set_pc_loop (forward bs)
        (set_pc_decodeLoop (after_recv (snd (dec_recv pc v)))
          (set_inbound
             (inbound s ++ deliver [ready] (offered (fst (dec_recv pc v)))) s)))
(* loop: the deferred calls *)
| step_CloseWriteInTimeslot s p :
    crashed s = false -> pc_loop s = LoopUnwind CloseWriteInTimeslot p ->
    step s (LoopDeferred CloseWriteInTimeslot)
      (set_pc_loop (LoopUnwind CloseWrite p)
        (set_writeInTimeslot_closed true
          (set_writeInTimeslot_q []
            (set_crashed (senders_panic (writeInTimeslot_q s)) s))))
| step_CloseWrite s p :
    crashed s = false -> pc_loop s = LoopUnwind CloseWrite p ->
    step s (LoopDeferred CloseWrite)
      (set_pc_loop (LoopUnwind CloseDecoder p)
        (set_write_closed true
          (set_write_q []
            (set_crashed (senders_panic (write_q s)) s))))
| step_CloseDecoder s p :
    crashed s = false -> pc_loop s = LoopUnwind CloseDecoder p ->
    step s (LoopDeferred CloseDecoder)
      (set_pc_loop (LoopUnwind DriverClose p) (set_decoder_closed true s))
| step_DriverClose s p :
    crashed s = false -> pc_loop s = LoopUnwind DriverClose p ->
    step s (LoopDeferred DriverClose)
      (set_pc_loop (LoopUnwind LoopDone p) (set_driver_open false s))
| step_LoopDone s p w :
    crashed s = false -> pc_loop s = LoopUnwind LoopDone p ->
    stop_recv_done (pc_Stop s) = Some w ->
    step s (LoopDeferred LoopDone)
      (set_pc_loop LoopExited
        (set_pc_Stop w
          (set_done_signals (S (done_signals s))
            (set_crashed (bool_decide (is_Some p)) s))))
(* decodeLoop *)
| step_DecoderSeesClosed s pc :
    crashed s = false ->
    pc_decodeLoop s = DecodeRecv pc -> decoder_closed s = true ->
    step s DecoderSeesClosed (set_pc_decodeLoop (DecodeUnwind CloseRead None) s)
| step_CloseRead s p :
    crashed s = false -> pc_decodeLoop s = DecodeUnwind CloseRead p ->
    step s (DecodeLoopDeferred CloseRead)
      (set_pc_decodeLoop (DecodeUnwind DecodeLoopDone p) (set_read_closed true s))
| step_DecodeLoopDone s p w :
    crashed s = false -> pc_decodeLoop s = DecodeUnwind DecodeLoopDone p ->
    stop_recv_done (pc_Stop s) = Some w ->
    step s (DecodeLoopDeferred DecodeLoopDone)
      (set_pc_decodeLoop DecodeExited
        (set_pc_Stop w
          (set_done_signals (S (done_signals s))
            (set_crashed (bool_decide (is_Some p)) s)))).

(** An execution: the steps taken from a state, oldest first. *)
Inductive trace : session -> list label -> session -> Prop :=
  | trace_nil s : trace s [] s
  | trace_snoc s ls s' l s'' :
      trace s ls s' -> step s' l s'' -> trace s (ls ++ [l]) s''.

End Session.

(** The session right after [Start]: both goroutines at the top of their
    loops, nothing sent or closed yet; [opened] tells whether [Open]
    succeeded. *)
Definition started (opened : bool) : session :=
  {| pc_Stop := StopNotCalled; pc_loop := LoopSelect;
     pc_decodeLoop := DecodeRecv SeekingSync; crashed := false;
     driver_open := opened; write_q := []; writeInTimeslot_q := [];
     write_closed := false; writeInTimeslot_closed := false;
     decoder_closed := false; read_closed := false;
     written := []; drained := []; inbound := [];
     stop_signals := 0; done_signals := 0 |}.

(** ** A concrete codec

    An instance of the codec in the ANT style (sync byte 0xA4, checksum the
    exclusive or of all preceding bytes), used to run the model on concrete
    streams. *)

Definition xor_bytes (l : list Z) : Z := foldr Z.lxor 0 l.

Definition xor_Encode (m : Message) : list Z :=
  let body := 164 :: len (Data m) :: Type_ m :: Data m in
  body ++ [xor_bytes body].

Definition xor_Decode (buf : list Z) : option Message :=
  match buf with
  | sync :: length :: id :: rest =>
      if decide (sync = 164 /\ len rest = length + 1 /\ xor_bytes buf = 0)
      then Some (NewMessage id (take (Z.to_nat length) rest))
      else None
  | _ => None
  end.

Definition xor_codec : Codec :=
  {| MESG_TX_SYNC := 164;
     MESG_BROADCAST_DATA_ID := 78;
     MESG_ACKNOWLEDGED_DATA_ID := 79;
     MESG_BURST_DATA_ID := 80;
     MESG_RADIO_TX_POWER_ID := 71;
     Decode := xor_Decode;
     Encode := xor_Encode |}.

(** What holds of every state of a started session. *)
Definition session_inv (s : session) : Prop :=
  stop_signals s = (if decide (2 <= stop_rank (pc_Stop s))%nat then 1 else 0)%nat /\
  (done_signals s + 2 = Nat.max 2 (stop_rank (pc_Stop s)))%nat /\
  done_signals s =
    (loop_exited (pc_loop s) + decodeLoop_exited (pc_decodeLoop s))%nat /\
  (decoder_closed s = true <-> (4 <= loop_rank (pc_loop s))%nat) /\
  ((5 <= loop_rank (pc_loop s))%nat -> driver_open s = false) /\
  (forall d, pc_decodeLoop s = DecodeUnwind d None -> decoder_closed s = true) /\
  (pc_decodeLoop s = DecodeExited -> crashed s = true \/ decoder_closed s = true).

(** ** Sample executions

    States and executions of a started session on the concrete codec. *)

Definition sample_command : Message := NewMessage 74 [0].
Definition sample_burst : Message := NewMessage 80 [2; 1; 2; 3; 4; 5; 6; 7; 8].

(** [Stop] is blocked sending on [dev.stopper] and a command is blocked
    sending on [dev.write], with [loop] at its [select]. *)
Definition both_ready : session :=
  set_write_q [sample_command] (set_pc_Stop StopSending (started true)).

(** A burst packet is sent on [dev.writeInTimeslot], a command on
    [dev.write], and [loop] writes the command. *)
Definition timeslot_run : list label :=
  [BlockOnWriteInTimeslot sample_burst; BlockOnWrite sample_command;
   SelectWrite sample_command true].

Definition timeslot_run_end : session :=
  set_writeInTimeslot_q [sample_burst]
    (set_drained [sample_command]
      (set_written [xor_Encode sample_command] (started true))).

(** A shutdown: [Stop] is called, [loop] runs its deferred calls,
    [decodeLoop] sees the closed channel, and both signal completion. *)
Definition shutdown_run : list label :=
  [CallStop; SelectStopper;
   LoopDeferred CloseWriteInTimeslot; LoopDeferred CloseWrite;
   LoopDeferred CloseDecoder; LoopDeferred DriverClose;
   DecoderSeesClosed; DecodeLoopDeferred CloseRead;
   LoopDeferred LoopDone; DecodeLoopDeferred DecodeLoopDone].

Definition stopped : session :=
  {| pc_Stop := StopReturned; pc_loop := LoopExited;
     pc_decodeLoop := DecodeExited; crashed := false;
     driver_open := false; write_q := []; writeInTimeslot_q := [];
     write_closed := true; writeInTimeslot_closed := true;
     decoder_closed := true; read_closed := true;
     written := []; drained := []; inbound := [];
     stop_signals := 1; done_signals := 2 |}.



(** ** The decoder on an open channel

    [decode_run] is the decoder after it received [stream] from a channel
    that is still open: the events so far, and the receive it is blocked
    in, or the panic that ended it. *)

Section DecoderRun.
Context `{Codec}.

Fixpoint decode_run (pc : dec_pc) (stream : list Z) : list dec_event * (panic + dec_pc) :=
  match stream with
  | [] => ([], inr pc)
  | b :: rest =>
      match dec_recv pc b with
      | (ev, inl p) => (ev, inl p)
      | (ev, inr pc') => let '(evs, r) := decode_run pc' rest in (ev ++ evs, r)
      end
  end.

(** A buffer as [decodeLoop] assembles it: the sync byte, the length byte,
    and [(length+4) mod 256] bytes in all. *)
Definition frame_shaped (buf : list Z) : Prop :=
  exists L rest, buf = MESG_TX_SYNC :: L :: rest /\ len buf = wrap8 (L + 4).

(** What [decodeLoop] keeps true of the receive it is blocked in. *)
Definition dec_pc_ok (pc : dec_pc) : Prop :=
  match pc with
  | Assembling L buf i =>
      (exists rest, buf = MESG_TX_SYNC :: L :: rest) /\
      len buf = wrap8 (L + 4) /\ 2 <= i < wrap8 (L + 4)
  | _ => True
  end.

(** A message whose encoding is a frame that [decodeLoop] can assemble
    (length byte at most 251) and that the codec decodes back. *)
Definition well_encoded (m : Message) : Prop :=
  exists L body,
    Encode m = MESG_TX_SYNC :: L :: body /\ 0 <= L <= 251 /\
    len body = L + 2 /\ Decode (Encode m) = Some m.

(** The byte stream of messages sent one after the other, each preceded
    by some other bytes. *)
Definition framed (items : list (list Z * Message)) : list Z :=
  concat (map (fun it => fst it ++ Encode (snd it)) items).

End DecoderRun.

(** A byte that, read as a length byte, leaves room for the sync and
    length bytes in the buffer. *)
Definition safe_byte (b : Z) : Prop := 0 <= b < 256 /\ b <> 252 /\ b <> 253.

(** ** Reading an execution of a session *)



Definition forwarded_byte (l : label) : option Z :=
  match l with ForwardByte v _ => Some v | _ => None end.

Definition bytes_forwarded (ls : list label) : list Z := omap forwarded_byte ls.


(** [decodeLoop] panics on the bytes that [loop] sent on [dev.decoder]. *)
Definition decoder_panicked `{Codec} (ls : list label) : Prop :=
  exists p, snd (decodeLoop (bytes_forwarded ls)) = Panicked p.








(** How far [decodeLoop] is through its deferred calls. *)
Definition decodeLoop_rank (pc : decodeLoop_pc) : nat :=
  match pc with
  | DecodeRecv _ => 0
  | DecodeUnwind CloseRead _ => 1
  | DecodeUnwind DecodeLoopDone _ => 2
  | DecodeExited => 3
  end%nat.

(** What holds of the channels and of [Stop] in every state of a started
    session. *)
Definition channels_inv (s : session) : Prop :=
  (writeInTimeslot_closed s = true <-> (2 <= loop_rank (pc_loop s))%nat) /\
  (write_closed s = true <-> (3 <= loop_rank (pc_loop s))%nat) /\
  (read_closed s = true <-> (2 <= decodeLoop_rank (pc_decodeLoop s))%nat) /\
  (write_closed s = true -> write_q s = []) /\
  (writeInTimeslot_closed s = true -> writeInTimeslot_q s = []) /\
  (loop_rank (pc_loop s) = 0%nat -> (stop_rank (pc_Stop s) <= 1)%nat) /\
  (forall d p, pc_loop s = LoopUnwind d (Some p) -> (stop_rank (pc_Stop s) <= 1)%nat) /\
  (forall d, pc_loop s = LoopUnwind d None -> (2 <= stop_rank (pc_Stop s))%nat) /\
  (pc_loop s = LoopExited -> (3 <= stop_rank (pc_Stop s))%nat).

(** [decodeLoop] panics on the length byte 252 while [loop] still has a
    byte to forward. *)
Definition stuck_run : list label :=
  [SelectDefault (Some [164; 252; 0]); ForwardByte 164 false; ForwardByte 252 false].

Definition stuck : session :=
  set_pc_decodeLoop (DecodeUnwind CloseRead (Some (PanicIndex 0 0)))
    (set_pc_loop (LoopForward [0]) (started true)).

(** [driver.Write] fails on the first command. *)
Definition write_failed : session :=
  set_pc_loop (LoopUnwind CloseWriteInTimeslot (Some PanicWrite))
    (set_drained [sample_command]
      (set_written [xor_Encode sample_command] (started true))).

(** [Stop] has its shutdown signal received while a command is still
    blocked on [dev.write]; [loop] then closes [dev.writeInTimeslot]. *)
Definition shutdown_pending : session :=
  set_pc_loop (LoopUnwind CloseWriteInTimeslot None)
    (set_pc_Stop StopWaitFirst (set_stop_signals 1 both_ready)).

Definition shutdown_pending_next : session :=
  set_pc_loop (LoopUnwind CloseWrite None)
    (set_writeInTimeslot_closed true shutdown_pending).

(** After the failed write [Stop] is called and [loop] runs its first
    deferred call. *)
Definition write_failed_next : session :=
  set_pc_Stop StopSending
    (set_pc_loop (LoopUnwind CloseWrite (Some PanicWrite))
      (set_writeInTimeslot_closed true write_failed)).

(** In the stuck session [Stop] is called and [decodeLoop] runs its first
    deferred call. *)
Definition stuck_next : session :=
  set_pc_Stop StopSending
    (set_pc_decodeLoop (DecodeUnwind DecodeLoopDone (Some (PanicIndex 0 0)))
      (set_read_closed true stuck)).

(** [decodeLoop] panics on the length byte 252, then [Stop] is called:
    [loop] shuts down and both completion signals are received. *)
Definition panicked_run : list label :=
  [SelectDefault (Some [164; 252]); ForwardByte 164 false; ForwardByte 252 false;
   CallStop; SelectStopper;
   LoopDeferred CloseWriteInTimeslot; LoopDeferred CloseWrite;
   LoopDeferred CloseDecoder; LoopDeferred DriverClose; LoopDeferred LoopDone;
   DecodeLoopDeferred CloseRead; DecodeLoopDeferred DecodeLoopDone].

Definition panicked_end : session :=
  {| pc_Stop := StopReturned; pc_loop := LoopExited;
     pc_decodeLoop := DecodeExited; crashed := true;
     driver_open := false; write_q := []; writeInTimeslot_q := [];
     write_closed := true; writeInTimeslot_closed := true;
     decoder_closed := true; read_closed := true;
     written := []; drained := []; inbound := [];
     stop_signals := 1; done_signals := 2 |}.



(** ** The configuration and control commands *)

(** The message ids and the power mask that the other commands of
    [ant.go] take from the rest of the package. *)
Class Constants : Type := {
  MESG_UNASSIGN_CHANNEL_ID : Z;
  MESG_ASSIGN_CHANNEL_ID : Z;
  MESG_CHANNEL_ID_ID : Z;
  MESG_CHANNEL_MESG_PERIOD_ID : Z;
  MESG_CHANNEL_SEARCH_TIMEOUT_ID : Z;
  MESG_CHANNEL_RADIO_FREQ_ID : Z;
  MESG_NETWORK_KEY_ID : Z;
  MESG_CHANNEL_RADIO_TX_POWER_ID : Z;
  RADIO_TX_POWER_LVL_MASK : Z;
  MESG_SYSTEM_RESET_ID : Z;
  MESG_OPEN_CHANNEL_ID : Z;
  MESG_CLOSE_CHANNEL_ID : Z;
  MESG_REQUEST_SIZE : Z;
  MESG_ID_LIST_ADD_ID : Z;
  MESG_OPEN_RX_SCAN_ID : Z
}.

(** [binary.LittleEndian.PutUint16(b[off:], v)]: the bounds check
    [_ = b[1]] on the slice [b[off:]], then its bytes 0 and 1, which are
    the bytes [off] and [off+1] of [b], are set to [byte(v)] and
    [byte(v >> 8)]. *)
Definition PutUint16_at (b : list Z) (off : Z) (v : Z) : panic + list Z :=
  match slice b off (len b) with
  | inl p => inl p
  | inr tail =>
      if decide (1 < len tail)
      then
        match store b off (wrap8 v) with
        | inl p => inl p
        | inr b' => store b' (off + 1) (wrap8 (Z.shiftr v 8))
        end
      else inl (PanicIndex 1 (len tail))
  end.

(** A payload that is ready, or the panic of building it, sent on
    [dev.write] under a message id. *)
Definition write_payload (id : Z) (payload : panic + list Z) : cmd unit :=
  match payload with
  | inl p => cmd_panic p
  | inr payload => chan_send ChWrite (NewMessage id payload)
  end.

Section ConfigCommands.
Context `{Codec} `{Constants}.

Definition UnAssignChannel (channel : Z) : cmd unit :=
  chan_send ChWrite (NewMessage MESG_UNASSIGN_CHANNEL_ID [channel]).

Definition AssignChannel (channel channelType networkNumber : Z) : cmd unit :=
  chan_send ChWrite
    (NewMessage MESG_ASSIGN_CHANNEL_ID [channel; channelType; networkNumber]).

Definition AssignChannelExt (channel channelType networkNumber ExtFlags : Z) : cmd unit :=
  chan_send ChWrite
    (NewMessage MESG_ASSIGN_CHANNEL_ID [channel; channelType; networkNumber; ExtFlags]).

Definition SetChannelId (channel deviceNum deviceType transmissionType : Z) : cmd unit :=
  write_payload MESG_CHANNEL_ID_ID
    (PutUint16_at [channel; 0; 0; deviceType; transmissionType] 1 deviceNum).

Definition SetChannelPeriod (channel messagePeriod : Z) : cmd unit :=
  write_payload MESG_CHANNEL_MESG_PERIOD_ID
    (PutUint16_at [channel; 0; 0] 1 messagePeriod).

Definition SetChannelSearchTimeout (channel messagePeriod : Z) : cmd unit :=
  chan_send ChWrite
    (NewMessage MESG_CHANNEL_SEARCH_TIMEOUT_ID [channel; messagePeriod]).

Definition SetChannelRFFreq (channel rfFreq : Z) : cmd unit :=
  chan_send ChWrite (NewMessage MESG_CHANNEL_RADIO_FREQ_ID [channel; rfFreq]).

Definition SetNetworkKey (channel : Z) (key : list Z) : cmd unit :=
  let payload := channel :: copy (make 8) key in
  chan_send ChWrite (NewMessage MESG_NETWORK_KEY_ID payload).

Definition SetTransmitPower (power : Z) : cmd unit :=
  chan_send ChWrite
    (NewMessage MESG_CHANNEL_RADIO_TX_POWER_ID [0; Z.land power RADIO_TX_POWER_LVL_MASK]).

Definition ResetSystem : cmd unit :=
  chan_send ChWrite (NewMessage MESG_SYSTEM_RESET_ID [0]).

Definition OpenChannel (channel : Z) : cmd unit :=
  chan_send ChWrite (NewMessage MESG_OPEN_CHANNEL_ID [channel]).

Definition CloseChannel (channel : Z) : cmd unit :=
  chan_send ChWrite (NewMessage MESG_CLOSE_CHANNEL_ID [channel]).

Definition RequestMessage (channel messageId : Z) : cmd unit :=
  chan_send ChWrite (NewMessage MESG_REQUEST_SIZE [channel; messageId]).

Definition WriteMessage (messageID : Z) (data : list Z) : cmd unit :=
  chan_send ChWrite (NewMessage messageID data).

Definition AddChannelID (channel deviceNum deviceType transmissionType index : Z) : cmd unit :=
  write_payload MESG_ID_LIST_ADD_ID
    (PutUint16_at [channel; 0; 0; deviceType; transmissionType; index] 1 deviceNum).

Definition ConfigList (channel listSize exclude : Z) : cmd unit :=
  chan_send ChWrite (NewMessage MESG_ID_LIST_ADD_ID [channel; listSize; exclude]).

Definition OpenRxScanMode : cmd unit :=
  chan_send ChWrite (NewMessage MESG_OPEN_RX_SCAN_ID [0; 1]).

(** The calls of the command layer, with their arguments. *)
Inductive command : Type :=
  | CUnAssignChannel (channel : Z)
  | CAssignChannel (channel channelType networkNumber : Z)
  | CAssignChannelExt (channel channelType networkNumber ExtFlags : Z)
  | CSetChannelId (channel deviceNum deviceType transmissionType : Z)
  | CSetChannelPeriod (channel messagePeriod : Z)
  | CSetChannelSearchTimeout (channel messagePeriod : Z)
  | CSetChannelRFFreq (channel rfFreq : Z)
  | CSetNetworkKey (channel : Z) (key : list Z)
  | CSetTransmitPower (power : Z)
  | CSetSearchWaveform (channel searchWaveform : Z)
  | CResetSystem
  | COpenChannel (channel : Z)
  | CCloseChannel (channel : Z)
  | CRequestMessage (channel messageId : Z)
  | CWriteMessage (messageID : Z) (data : list Z)
  | CSendBroadcastData (channel : Z) (data : list Z)
  | CSendAcknowledgedData (channel : Z) (data : list Z)
  | CSendBurstTransferPacket (channelSeq : Z) (data : list Z)
  | CSendBurstTransfer (channel : Z) (data : list Z)
  | CAddChannelID (channel deviceNum deviceType transmissionType index : Z)
  | CConfigList (channel listSize exclude : Z)
  | COpenRxScanMode.

Definition call (c : command) : cmd unit :=
  match c with
  | CUnAssignChannel ch => UnAssignChannel ch
  | CAssignChannel ch t n => AssignChannel ch t n
  | CAssignChannelExt ch t n e => AssignChannelExt ch t n e
  | CSetChannelId ch dn dt tr => SetChannelId ch dn dt tr
  | CSetChannelPeriod ch p => SetChannelPeriod ch p
  | CSetChannelSearchTimeout ch p => SetChannelSearchTimeout ch p
  | CSetChannelRFFreq ch f => SetChannelRFFreq ch f
  | CSetNetworkKey ch k => SetNetworkKey ch k
  | CSetTransmitPower p => SetTransmitPower p
  | CSetSearchWaveform ch w => SetSearchWaveform ch w
  | CResetSystem => ResetSystem
  | COpenChannel ch => OpenChannel ch
  | CCloseChannel ch => CloseChannel ch
  | CRequestMessage ch i => RequestMessage ch i
  | CWriteMessage i d => WriteMessage i d
  | CSendBroadcastData ch d => SendBroadcastData ch d
  | CSendAcknowledgedData ch d => SendAcknowledgedData ch d
  | CSendBurstTransferPacket cs d => SendBurstTransferPacket cs d
  | CSendBurstTransfer ch d => SendBurstTransfer ch d
  | CAddChannelID ch dn dt tr i => AddChannelID ch dn dt tr i
  | CConfigList ch l e => ConfigList ch l e
  | COpenRxScanMode => OpenRxScanMode
  end.

End ConfigCommands.

(** The commands that check their arguments, and those that send on the
    timeslot channel. *)
Definition checks_arguments (c : command) : bool :=
  match c with
  | CSetSearchWaveform _ _ | CSendBroadcastData _ _ | CSendAcknowledgedData _ _
  | CSendBurstTransferPacket _ _ | CSendBurstTransfer _ _ => true
  | _ => false
  end.

Definition channel_of (c : command) : outbound :=
  match c with
  | CSendAcknowledgedData _ _ | CSendBurstTransferPacket _ _
  | CSendBurstTransfer _ _ => ChWriteInTimeslot
  | _ => ChWrite
  end.

(** Sample values of the constants. *)
Definition sample_constants : Constants :=
  {| MESG_UNASSIGN_CHANNEL_ID := 65; MESG_ASSIGN_CHANNEL_ID := 66;
     MESG_CHANNEL_ID_ID := 81; MESG_CHANNEL_MESG_PERIOD_ID := 67;
     MESG_CHANNEL_SEARCH_TIMEOUT_ID := 68; MESG_CHANNEL_RADIO_FREQ_ID := 69;
     MESG_NETWORK_KEY_ID := 70; MESG_CHANNEL_RADIO_TX_POWER_ID := 96;
     RADIO_TX_POWER_LVL_MASK := 3; MESG_SYSTEM_RESET_ID := 74;
     MESG_OPEN_CHANNEL_ID := 75; MESG_CLOSE_CHANNEL_ID := 76;
     MESG_REQUEST_SIZE := 77; MESG_ID_LIST_ADD_ID := 89;
     MESG_OPEN_RX_SCAN_ID := 91 |}.

(** The payload of a unit-data message without its first byte, and a
    16-bit field read back from two payload bytes, low byte first. *)
Definition packet_data (m : Message) : list Z := drop 1 (Data m).

Definition uint16_le (lo hi : Z) : Z := lo + 256 * hi.

(** * Properties *)

(** ** The command layer *)

Section CommandFacts.
Context `{Codec}.

Lemma for_range_sends (c : outbound) (f : Z -> Message) (body : Z -> cmd unit) idx :
  (forall i, i ∈ idx -> body i = chan_send c (f i)) ->
  for_range idx body = (map (fun i => (c, f i)) idx, Returned tt).
Proof.
  induction idx as [|i idx IH]; intros Hbody; simpl; [done|].
  rewrite (Hbody i) by constructor.
  rewrite IH by (intros j Hj; apply Hbody; by constructor).
  done.
Qed.

Lemma for_range_panics (body : Z -> cmd unit) (pre : list Z) i post m p c f :
  (forall j, j ∈ pre -> body j = chan_send c (f j)) ->
  body i = (m, Panicked p) ->
  for_range (pre ++ i :: post) body = (map (fun j => (c, f j)) pre ++ m, Panicked p).
Proof.
  intros Hpre Hi. induction pre as [|j pre IH]; simpl.
  - by rewrite Hi.
  - rewrite (Hpre j) by constructor.
    rewrite IH by (intros k Hk; apply Hpre; by constructor). done.
Qed.

Lemma SendBurstTransferPacket_sends channelSeq pkt :
  len pkt = 8 ->
  SendBurstTransferPacket channelSeq pkt =
    chan_send ChWriteInTimeslot (NewMessage MESG_BURST_DATA_ID (channelSeq :: pkt)).
Proof.
  intros Hlen. unfold SendBurstTransferPacket.
  destruct (decide (len pkt <> 8)) as [|_]; [congruence|].
  unfold len in Hlen. assert (length pkt = 8%nat) as Hl by lia.
  unfold copy, make. simpl. rewrite Hl. simpl.
  rewrite firstn_all2 by lia. by rewrite app_nil_r.
Qed.

Lemma burst_body_sends channel data packets i :
  0 <= i <= 30 -> i * 8 + 8 <= len data ->
  burst_body channel data packets i =
    chan_send ChWriteInTimeslot
      (NewMessage MESG_BURST_DATA_ID
         (burst_channelSeq channel packets i :: packet data i)).
Proof.
  intros Hi Hlen. unfold burst_body, slice, wrap8.
  rewrite (Z.mod_small (i * 8)) by lia.
  rewrite (Z.mod_small (i * 8 + 8)) by lia.
  destruct (decide _) as [_|Hn]; [|lia].
  replace (Z.to_nat (i * 8 + 8 - i * 8)) with 8%nat by lia.
  apply SendBurstTransferPacket_sends.
  unfold len, packet in *. rewrite length_take, length_drop. lia.
Qed.

(** Index 31: [i*8+8] wraps to 0 and the slice expression panics. *)
Lemma burst_body_31 channel data packets :
  burst_body channel data packets 31 = ([], Panicked (PanicSliceBounds 248 0)).
Proof.
  unfold burst_body, slice. change (wrap8 (31 * 8)) with 248.
  change (wrap8 (248 + 8)) with 0.
  destruct (decide _) as [Hn|_]; [lia|done].
Qed.

(** A transfer of at most 31 packets (after the truncation of the packet
    count to [uint8]) has a send for each and then returns. *)
Lemma SendBurstTransfer_small channel data k :
  len data = 8 * k -> k mod 256 <= 31 ->
  SendBurstTransfer channel data =
    (map (fun i => (ChWriteInTimeslot,
                    NewMessage MESG_BURST_DATA_ID
                      (burst_channelSeq channel (k mod 256) i :: packet data i)))
         (seqZ 0 (k mod 256)),
     Returned tt).
Proof.
  intros Hlen Hk. unfold SendBurstTransfer.
  assert (0 <= k) by (unfold len in Hlen; lia).
  destruct (decide _) as [Hn|_].
  { exfalso. apply Hn. rewrite Hlen, Z.mul_comm. apply Z.mod_mul. lia. }
  replace (len data / 8) with k by (rewrite Hlen, Z.mul_comm, Z.div_mul; lia).
  unfold wrap8.
  apply for_range_sends. intros i Hi. apply elem_of_seqZ in Hi.
  assert (k mod 256 <= k) by (apply Z.mod_le; lia).
  apply burst_body_sends; lia.
Qed.

(** A transfer of 32 or more packets (after truncation) has 31 sends and
    then panics at the slice expression of the 32nd packet. *)
Lemma SendBurstTransfer_large channel data k :
  len data = 8 * k -> 32 <= k mod 256 ->
  SendBurstTransfer channel data =
    (map (fun i => (ChWriteInTimeslot,
                    NewMessage MESG_BURST_DATA_ID
                      (burst_channelSeq channel (k mod 256) i :: packet data i)))
         (seqZ 0 31),
     Panicked (PanicSliceBounds 248 0)).
Proof.
  intros Hlen Hk. unfold SendBurstTransfer.
  assert (0 <= k) by (unfold len in Hlen; lia).
  destruct (decide _) as [Hn|_].
  { exfalso. apply Hn. rewrite Hlen, Z.mul_comm. apply Z.mod_mul. lia. }
  replace (len data / 8) with k by (rewrite Hlen, Z.mul_comm, Z.div_mul; lia).
  unfold wrap8.
  assert (k mod 256 <= k) by (apply Z.mod_le; lia).
  assert (k mod 256 < 256) by (apply Z.mod_pos_bound; lia).
  replace (seqZ 0 (k mod 256))
    with (seqZ 0 31 ++ 31 :: seqZ 32 (k mod 256 - 32)).
  2:{ replace (k mod 256) with (31 + (1 + (k mod 256 - 32))) at 2 by lia.
      rewrite seqZ_app by lia. f_equal.
      rewrite (seqZ_cons 31) by lia. f_equal. f_equal; lia. }
  rewrite (for_range_panics _ _ _ _ [] (PanicSliceBounds 248 0) ChWriteInTimeslot
             (fun i => NewMessage MESG_BURST_DATA_ID
                (burst_channelSeq channel (k mod 256) i :: packet data i))).
  - by rewrite app_nil_r.
  - intros j Hj. apply elem_of_seqZ in Hj. apply burst_body_sends; lia.
  - apply burst_body_31.
Qed.

(** [perform] completes a prefix of the sends of the call, all of them
    taken; the call runs to its end exactly when every send was taken. *)
Lemma perform_sends_prefix script r env :
  exists j : nat,
    (j <= length script)%nat /\
    fst (perform_sends script r env) = take j script /\
    (forall n, (n < j)%nat -> env n = Taken) /\
    (j = length script -> snd (perform_sends script r env) = Ended r) /\
    ((j < length script)%nat ->
       env j <> Taken /\ forall r', snd (perform_sends script r env) <> Ended r').
Proof.
  revert env. induction script as [|[c m] script IH]; intros env.
  - exists 0%nat. simpl. repeat split; try done; lia.
  - simpl. destruct (env 0%nat) eqn:He.
    + destruct (IH (fun n => env (S n))) as (j & Hj & Hfst & Htaken & Hend & Hstop).
      destruct (perform_sends script r (fun n => env (S n))) as [done e].
      simpl in *. exists (S j). repeat split.
      * lia.
      * simpl. by rewrite Hfst.
      * intros [|n] Hn; [done|]. apply Htaken. lia.
      * intros Hlen. apply Hend. lia.
      * apply Hstop. lia.
      * apply Hstop. lia.
    + exists 0%nat. simpl. repeat split; try done; try lia. by rewrite He.
    + exists 0%nat. simpl. repeat split; try done; try lia. by rewrite He.
Qed.

Lemma perform_sends_taken script r env :
  (forall n, (n < length script)%nat -> env n = Taken) ->
  perform_sends script r env = (script, Ended r).
Proof.
  revert env. induction script as [|[c m] script IH]; intros env Hall; [done|].
  simpl. rewrite (Hall 0%nat) by (simpl; lia).
  rewrite IH; [done|]. intros n Hn. apply Hall. simpl. lia.
Qed.

(** The program of a burst transfer of [8*k] bytes: it has
    [min (k mod 256) 31] sends, the packets in order with the
    channel-sequence bytes of a transfer of [k mod 256] packets, and ends by
    returning when [k mod 256 <= 31]. *)
Lemma SendBurstTransfer_script channel data k :
  len data = 8 * k ->
  exists n : nat,
    Z.of_nat n = Z.min (k mod 256) 31 /\
    sent (SendBurstTransfer channel data) =
      map (fun i => (ChWriteInTimeslot,
                     NewMessage MESG_BURST_DATA_ID
                       (burst_channelSeq channel (k mod 256) i :: packet data i)))
          (seqZ 0 (Z.of_nat n)) /\
    (k mod 256 <= 31 -> result (SendBurstTransfer channel data) = Returned tt) /\
    (32 <= k mod 256 ->
       result (SendBurstTransfer channel data) = Panicked (PanicSliceBounds 248 0)).
Proof.
  intros Hlen.
  assert (0 <= k) by (unfold len in Hlen; lia).
  pose proof (Z.mod_pos_bound k 256 ltac:(lia)).
  exists (Z.to_nat (Z.min (k mod 256) 31)).
  split; [lia|].
  destruct (decide (k mod 256 <= 31)) as [Hs|Hs].
  - rewrite (SendBurstTransfer_small channel data k) by done.
    replace (Z.of_nat (Z.to_nat (Z.min (k mod 256) 31))) with (k mod 256) by lia.
    repeat split; try done; lia.
  - rewrite (SendBurstTransfer_large channel data k) by (done || lia).
    replace (Z.of_nat (Z.to_nat (Z.min (k mod 256) 31))) with 31 by lia.
    repeat split; try done; lia.
Qed.

End CommandFacts.

Section BurstSequencing.
Context `{Codec}.

(** Between 2 and 31 packets the channel-sequence bytes are the
    specified ones. *)
Lemma burst_channelSeq_spec channel N i :
  2 <= N <= 31 -> 0 <= i < N ->
  burst_channelSeq channel N i = spec_channelSeq channel N i.
Proof.
  intros HN Hi. unfold burst_channelSeq, spec_channelSeq. f_equal.
  unfold burst_sequence, spec_sequence, wrap8.
  rewrite (Z.mod_small (N - 1)) by lia.
  destruct (decide (i = 0)) as [->|Hi0].
  { destruct (decide (0 = N - 1)); [lia|done]. }
  rewrite (Z.mod_small (i - 1)) by lia.
  assert ((i - 1) mod 3 = 0 \/ (i - 1) mod 3 = 1 \/ (i - 1) mod 3 = 2) as Hr
    by (pose proof (Z.mod_pos_bound (i - 1) 3); lia).
  destruct (decide (i = N - 1)); destruct Hr as [-> | [-> | ->]]; reflexivity.
Qed.

Lemma SendBurstTransfer_channelSeqs channel data N :
  len data = 8 * N -> 2 <= N <= 31 ->
  result (SendBurstTransfer channel data) = Returned tt /\
  channelSeqs (SendBurstTransfer channel data) =
    map (spec_channelSeq channel N) (seqZ 0 N).
Proof.
  intros Hlen HN.
  rewrite (SendBurstTransfer_small channel data N) by (rewrite ?Z.mod_small; lia).
  rewrite Z.mod_small by lia. split; [done|].
  unfold channelSeqs, sent_on, sent. simpl.
  assert (forall l, (forall i, i ∈ l -> 0 <= i < N) ->
    map (fun m => default 0 (head (Data m)))
      (map snd (filter (fun e => Is_true (outbound_eqb (fst e) ChWriteInTimeslot))
        (map (fun i => (ChWriteInTimeslot,
                NewMessage MESG_BURST_DATA_ID
                  (burst_channelSeq channel N i :: packet data i))) l)))
    = map (spec_channelSeq channel N) l) as Hgen.
  { induction l as [|i l IH]; intros Hl; [done|].
    simpl.
    rewrite burst_channelSeq_spec by (try apply Hl; (lia || by constructor)).
    f_equal. apply IH. intros j Hj. apply Hl. by constructor. }
  apply Hgen. intros i Hi. apply elem_of_seqZ in Hi. lia.
Qed.

(** The 64-byte example of the specification. *)
Lemma SendBurstTransfer_64_bytes :
  channelSeqs (SendBurstTransfer 2 (replicate 64 0)) =
    [2; Z.lor 2 (Z.shiftl 1 5); Z.lor 2 (Z.shiftl 2 5); Z.lor 2 (Z.shiftl 3 5);
     Z.lor 2 (Z.shiftl 1 5); Z.lor 2 (Z.shiftl 2 5); Z.lor 2 (Z.shiftl 3 5);
     Z.lor 2 (Z.shiftl (Z.lor 1 4) 5)].
Proof. vm_compute. reflexivity. Qed.

(** C3: the sequencing rule for [N] packets.  The code departs from it
    for a single packet (the first packet is also the last, and carries
    no terminal flag: the rule asks for [2 | (0b100 << 5) = 130]) and for
    32 packets or more (the 32nd slice expression panics once the 31
    packets before it were sent). *)
Theorem SendBurstTransfer_sequence_rule_broken :
  (channelSeqs (SendBurstTransfer 2 (replicate 8 0)) = [2] /\
   map (spec_channelSeq 2 1) (seqZ 0 1) = [130]) /\
  (result (SendBurstTransfer 2 (replicate 256 0)) = Panicked (PanicSliceBounds 248 0) /\
   length (channelSeqs (SendBurstTransfer 2 (replicate 256 0))) = 31%nat).
Proof. vm_compute. repeat split; reflexivity. Qed.

(** C4: a single-packet transfer (8 bytes of data).  The code sends the
    packet with sequence field 0 and without the terminal flag: its
    channel-sequence byte is [channel], not [channel | (0b100 << 5)]. *)
Theorem SendBurstTransfer_single_packet channel data :
  0 <= channel < 32 -> len data = 8 ->
  channelSeqs (SendBurstTransfer channel data) = [channel] /\
  channel <> Z.lor channel (Z.shiftl 4 5).
Proof.
  intros Hc Hlen. split.
  - rewrite (SendBurstTransfer_small channel data 1) by (rewrite ?Z.mod_small; lia).
    change (1 mod 256) with 1. unfold channelSeqs, sent_on, sent. simpl.
    unfold burst_channelSeq, burst_sequence. simpl.
    by rewrite Z.lor_0_r.
  - intros Heq.
    assert (Z.testbit channel 7 = true) as Hbit.
    { rewrite Heq, Z.lor_spec. change (Z.testbit (Z.shiftl 4 5) 7) with true.
      apply orb_true_r. }
    assert (Z.testbit channel 7 = false) as Hclear.
    { apply Z.testbit_false; [lia|].
      rewrite Z.div_small by (change (2 ^ 7) with 128; lia). done. }
    congruence.
Qed.

(** C5: a unit payload that is not 8 bytes long, or a search waveform
    other than 97 and 316, makes the command panic before it sends
    anything on either outbound channel. *)
Theorem invalid_argument_enqueues_nothing channel channelSeq data searchWaveform :
  len data <> 8 -> searchWaveform <> 97 -> searchWaveform <> 316 ->
  SendBroadcastData channel data = ([], Panicked (PanicDataLength (len data))) /\
  SendAcknowledgedData channel data = ([], Panicked (PanicDataLength (len data))) /\
  SendBurstTransferPacket channelSeq data = ([], Panicked (PanicDataLength (len data))) /\
  SetSearchWaveform channel searchWaveform = ([], Panicked PanicSearchWaveform).
Proof.
  intros Hlen H97 H316.
  unfold SendBroadcastData, SendAcknowledgedData, SendBurstTransferPacket,
    SetSearchWaveform.
  destruct (decide (len data <> 8)); [|done].
  destruct (decide (searchWaveform <> 316 /\ searchWaveform <> 97)) as [|Hn]; [done|].
  exfalso. apply Hn. done.
Qed.

(** C10: the packet count of [SendBurstTransfer] after its truncation to
    8 bits.  A payload of [8*k] bytes with [32 <= k mod 256] passes the
    length check, but the call never sends [k mod 256] packets: its 32nd
    slice expression [data[248:0]] panics, so the call has 31 sends only;
    whatever becomes of these sends, at most 31 complete and the call does
    not return. *)
Theorem SendBurstTransfer_32nd_packet_never_sent channel data k (env : nat -> fate) :
  len data = 8 * k -> 32 <= k mod 256 ->
  result (SendBurstTransfer channel data) = Panicked (PanicSliceBounds 248 0) /\
  sends (SendBurstTransfer channel data) = 31 /\
  (length (completed (SendBurstTransfer channel data) env) <= 31)%nat /\
  ends (SendBurstTransfer channel data) env <> Ended (Returned tt).
Proof.
  intros Hlen Hk. unfold completed, ends, perform, sends.
  rewrite (SendBurstTransfer_large channel data k) by done.
  unfold sent, result. cbn [fst snd].
  set (script := map _ (seqZ 0 31)).
  assert (length script = 31%nat) as Hlen31
    by (unfold script; by rewrite length_map, length_seqZ).
  destruct (perform_sends_prefix script (Panicked (PanicSliceBounds 248 0)) env)
    as (j & Hj & Hfst & _ & Hend & Hstop).
  split; [done|]. split; [lia|]. split.
  - rewrite Hfst, length_take. lia.
  - destruct (decide (j = length script)) as [Hall|Hpart].
    + rewrite (Hend Hall). discriminate.
    + apply Hstop. lia.
Qed.

End BurstSequencing.

(** C4 at channel 2 with the payload 1..8. *)
Lemma SendBurstTransfer_single_packet_witness :
  channelSeqs (SendBurstTransfer (H := xor_codec) 2 [1; 2; 3; 4; 5; 6; 7; 8]) = [2] /\
  2 <> Z.lor 2 (Z.shiftl 4 5).
Proof.
  apply (SendBurstTransfer_single_packet (H := xor_codec) 2 [1; 2; 3; 4; 5; 6; 7; 8]).
  - lia.
  - reflexivity.
Defined.

(** C5 at a 3-byte payload and the waveform 100. *)
Lemma invalid_argument_enqueues_nothing_witness :
  SendBroadcastData (H := xor_codec) 1 [1; 2; 3] = ([], Panicked (PanicDataLength 3)) /\
  SendAcknowledgedData (H := xor_codec) 1 [1; 2; 3] = ([], Panicked (PanicDataLength 3)) /\
  SendBurstTransferPacket (H := xor_codec) 33 [1; 2; 3] = ([], Panicked (PanicDataLength 3)) /\
  SetSearchWaveform (H := xor_codec) 1 100 = ([], Panicked PanicSearchWaveform).
Proof.
  apply (invalid_argument_enqueues_nothing (H := xor_codec) 1 33 [1; 2; 3] 100).
  - vm_compute. discriminate.
  - lia.
  - lia.
Defined.

(** C10 at a payload of 256 bytes (32 packets), every send being taken. *)
Lemma SendBurstTransfer_32nd_packet_never_sent_witness :
  result (SendBurstTransfer (H := xor_codec) 2 (replicate 256 0)) =
    Panicked (PanicSliceBounds 248 0) /\
  sends (SendBurstTransfer (H := xor_codec) 2 (replicate 256 0)) = 31 /\
  le (length (completed (SendBurstTransfer (H := xor_codec) 2 (replicate 256 0)) all_taken))
     31%nat /\
  ends (SendBurstTransfer (H := xor_codec) 2 (replicate 256 0)) all_taken <>
    Ended (Returned tt).
Proof.
  apply (SendBurstTransfer_32nd_packet_never_sent (H := xor_codec) 2 (replicate 256 0) 32
           all_taken).
  - vm_compute. reflexivity.
  - vm_compute. discriminate.
Defined.

(** ** The frame decoder *)

Section DecoderFacts.
Context `{Codec}.

Lemma store_at (pre : list Z) x suf v :
  store (pre ++ x :: suf) (len pre) v = inr (pre ++ v :: suf).
Proof.
  unfold store, len. rewrite length_app. simpl.
  destruct (decide _) as [_|Hn]; [|lia].
  rewrite Nat2Z.id.
  replace (length pre) with (length pre + 0)%nat at 1 by lia.
  by rewrite insert_app_r.
Qed.

Lemma store_0 x (suf : list Z) v : store (x :: suf) 0 v = inr (v :: suf).
Proof. apply (store_at [] x suf v). Qed.

Lemma store_1 a x (suf : list Z) v : store (a :: x :: suf) 1 v = inr (a :: v :: suf).
Proof. apply (store_at [a] x suf v). Qed.

Lemma store_2 a a' x (suf : list Z) v :
  store (a :: a' :: x :: suf) 2 v = inr (a :: a' :: v :: suf).
Proof. apply (store_at [a; a'] x suf v). Qed.

(** While the decoder seeks the sync byte it drops every other byte. *)
Lemma decode_seek (pre rest : list Z) :
  MESG_TX_SYNC ∉ pre ->
  decode_from SeekingSync (pre ++ rest) = decode_from SeekingSync rest.
Proof.
  induction pre as [|b pre IH]; intros Hpre; [done|].
  apply not_elem_of_cons in Hpre as [Hb Hpre].
  simpl. destruct (decide (b <> MESG_TX_SYNC)) as [_|Hn]; [|by destruct Hn].
  rewrite IH by done. by destruct (decode_from SeekingSync rest).
Qed.

Lemma decode_seek_closed (pre : list Z) :
  MESG_TX_SYNC ∉ pre -> decode_from SeekingSync pre = ([], Returned tt).
Proof.
  intros Hpre. rewrite <- (app_nil_r pre). by rewrite decode_seek.
Qed.

Lemma decode_sync (rest : list Z) :
  decode_from SeekingSync (MESG_TX_SYNC :: rest) = decode_from ReadingLength rest.
Proof.
  simpl. destruct (decide (MESG_TX_SYNC <> MESG_TX_SYNC)) as [Hn|_]; [done|].
  by destruct (decode_from ReadingLength rest).
Qed.

(** The assembly loop on a frame whose length byte is at most 251: [got]
    is what the buffer holds so far, [body] the bytes still to come. *)
Lemma decode_assemble L (got body rest : list Z) (n : nat) :
  0 <= L <= 251 -> 2 <= len got -> length body = S n -> len got + len body = L + 4 ->
  decode_from (Assembling L (got ++ replicate (S n) 0) (len got)) (body ++ rest) =
    (fst (validate (got ++ body)) ++ fst (decode_from SeekingSync rest),
     snd (decode_from SeekingSync rest)).
Proof.
  intros HL. revert got body.
  induction n as [|n IH]; intros got body Hgot Hbody Hlen.
  - destruct body as [|b [|]]; try discriminate. simpl.
    rewrite store_at. unfold assemble, wrap8.
    rewrite Z.mod_small by lia. unfold len in *. simpl in Hlen.
    destruct (decide _) as [Hlt|_]; [lia|].
    destruct (validate (got ++ [b])) as [ev pc] eqn:Hv.
    assert (pc = SeekingSync) as ->
      by (unfold validate in Hv; destruct (Decode _); by inversion Hv).
    by destruct (decode_from SeekingSync rest).
  - destruct body as [|b body]; [discriminate|].
    simpl. rewrite store_at. unfold assemble, wrap8.
    rewrite Z.mod_small by lia. unfold len in *. simpl in Hlen, Hbody.
    destruct (decide _) as [_|Hge]; [|lia].
    replace (got ++ b :: 0 :: replicate n 0)
      with ((got ++ [b]) ++ replicate (S n) 0) by by rewrite <- app_assoc.
    replace (Z.of_nat (length got) + 1) with (Z.of_nat (length (got ++ [b])))
      by (rewrite length_app; simpl; lia).
    specialize (IH (got ++ [b]) body). unfold len in IH.
    rewrite IH; [by rewrite <- app_assoc| | |];
      rewrite ?length_app; simpl; lia.
Qed.

(** If the channel is closed before the last byte of the frame arrived
    the decoder returns without having called the codec. *)
Lemma decode_assemble_closed L (got body : list Z) (n : nat) :
  0 <= L <= 251 -> 2 <= len got -> (length body < n)%nat ->
  len got + Z.of_nat n = L + 4 ->
  decode_from (Assembling L (got ++ replicate n 0) (len got)) body =
    ([], Returned tt).
Proof.
  intros HL. revert got n.
  induction body as [|b body IH]; intros got n Hgot Hbody Hlen; [done|].
  destruct n as [|n]; [simpl in Hbody; lia|].
  simpl. rewrite store_at. unfold assemble, wrap8.
  rewrite Z.mod_small by lia. unfold len in *. simpl in Hbody.
  destruct (decide _) as [_|Hge]; [|lia].
  replace (got ++ b :: replicate n 0)
    with ((got ++ [b]) ++ replicate n 0) by by rewrite <- app_assoc.
  replace (Z.of_nat (length got) + 1) with (Z.of_nat (length (got ++ [b])))
    by (rewrite length_app; simpl; lia).
  specialize (IH (got ++ [b]) n). unfold len in IH.
  rewrite IH; [done| | |]; rewrite ?length_app; simpl; lia.
Qed.

(** After the length byte [L <= 251]: a buffer of [L+4] bytes holding the
    sync byte and [L], and the assembly loop from index 2. *)
Lemma dec_recv_length L :
  0 <= L <= 251 ->
  dec_recv ReadingLength L =
    ([], inr (Assembling L ([MESG_TX_SYNC; L] ++ replicate (Z.to_nat (L + 2)) 0) 2)).
Proof.
  intros HL. cbn [dec_recv]. unfold make, wrap8. rewrite Z.mod_small by lia.
  replace (Z.to_nat (L + 4)) with (S (S (Z.to_nat (L + 2)))) by lia.
  rewrite !replicate_S.
  rewrite store_0, store_1.
  unfold assemble, wrap8. rewrite Z.mod_small by lia.
  destruct (decide _) as [_|Hge]; [done|lia].
Qed.

(** A whole frame with [L <= 251]: the decoder consumes exactly the [L+2]
    bytes after the length byte, hands the [L+4] bytes to the codec in the
    order received, and goes on with the rest of the stream. *)
Lemma decode_frame L (body rest : list Z) :
  0 <= L <= 251 -> len body = L + 2 ->
  decode_from SeekingSync (MESG_TX_SYNC :: L :: body ++ rest) =
    (fst (validate (MESG_TX_SYNC :: L :: body)) ++ fst (decode_from SeekingSync rest),
     snd (decode_from SeekingSync rest)).
Proof.
  intros HL Hbody. rewrite decode_sync.
  cbn [decode_from]. rewrite dec_recv_length by done.
  unfold len in Hbody.
  replace (Z.to_nat (L + 2)) with (S (Z.to_nat (L + 1))) by lia.
  rewrite (decode_assemble L [MESG_TX_SYNC; L] body rest (Z.to_nat (L + 1)));
    unfold len; simpl; (done || lia).
Qed.

Lemma decode_partial_frame L (body : list Z) :
  0 <= L <= 251 -> len body < L + 2 ->
  decode_from SeekingSync (MESG_TX_SYNC :: L :: body) = ([], Returned tt).
Proof.
  intros HL Hbody. rewrite decode_sync.
  cbn [decode_from]. rewrite dec_recv_length by done.
  unfold len in Hbody.
  rewrite (decode_assemble_closed L [MESG_TX_SYNC; L] body (Z.to_nat (L + 2)));
    unfold len; simpl; (done || lia).
Qed.

End DecoderFacts.

Section DecoderClaims.
Context `{Codec}.

(** Closure of the byte channel while the decoder seeks the sync byte,
    right after the sync byte, or inside a frame whose length byte is at
    most 251: nothing is handed to the codec, nothing is offered, and the
    loop returns. *)
Lemma decodeLoop_partial_frame (pre body : list Z) L :
  MESG_TX_SYNC ∉ pre -> 0 <= L <= 251 -> len body < L + 2 ->
  decodeLoop pre = ([], Returned tt) /\
  decodeLoop (pre ++ [MESG_TX_SYNC]) = ([], Returned tt) /\
  decodeLoop (pre ++ MESG_TX_SYNC :: L :: body) = ([], Returned tt).
Proof.
  intros Hpre HL Hbody. unfold decodeLoop. repeat split.
  - by apply decode_seek_closed.
  - rewrite decode_seek by done. by rewrite decode_sync.
  - rewrite decode_seek by done. by apply decode_partial_frame.
Qed.

(** C1: the assembly buffer for the length byte [L].  Its size [length+4]
    is computed on [byte]s and wraps for [L >= 252]: with [L = 252] the
    buffer is empty and storing the sync byte panics, with [L = 253] storing
    the length panics, and with [L = 255] the buffer has 3 bytes, so that
    one further byte is consumed (not 257) and a 3-byte buffer is handed to
    the codec.  For [L <= 251] see [decode_frame]. *)
Theorem decodeLoop_length_byte_wraps (b : Z) (rest : list Z) :
  decodeLoop (MESG_TX_SYNC :: 252 :: rest) = ([], Panicked (PanicIndex 0 0)) /\
  decodeLoop (MESG_TX_SYNC :: 253 :: rest) = ([], Panicked (PanicIndex 1 1)) /\
  validated (fst (decodeLoop (MESG_TX_SYNC :: 255 :: b :: rest))) =
    [MESG_TX_SYNC; 255; b] :: validated (fst (decodeLoop rest)).
Proof.
  unfold decodeLoop. rewrite !decode_sync.
  split; [reflexivity|]. split; [reflexivity|].
  - cbn [decode_from dec_recv].
    change (make (wrap8 (255 + 4))) with [0; 0; 0].
    rewrite store_0, store_1.
    change (assemble 255 [MESG_TX_SYNC; 255; 0] 2)
      with (@nil dec_event, Assembling 255 [MESG_TX_SYNC; 255; 0] 2).
    cbn [dec_recv]. rewrite store_2.
    change (assemble 255 [MESG_TX_SYNC; 255; b] (2 + 1))
      with (validate [MESG_TX_SYNC; 255; b]).
    unfold validate.
    destruct (Decode [MESG_TX_SYNC; 255; b]);
      destruct (decode_from SeekingSync rest); reflexivity.
Qed.

(** C6: closure of the byte channel right after a length byte of 252 or
    253.  The decoder does not return: it panics on the store into the too
    short buffer. *)
Theorem decodeLoop_closed_after_length_panics (pre : list Z) :
  MESG_TX_SYNC ∉ pre ->
  decodeLoop (pre ++ [MESG_TX_SYNC; 252]) = ([], Panicked (PanicIndex 0 0)) /\
  decodeLoop (pre ++ [MESG_TX_SYNC; 253]) = ([], Panicked (PanicIndex 1 1)).
Proof.
  intros Hpre. unfold decodeLoop.
  rewrite !decode_seek, !decode_sync by done. split; reflexivity.
Qed.

(** C2, as amended: a frame that the codec rejects, followed by a frame
    that it accepts (both with a length byte of at most 251, the decoder
    seeking the sync byte when the first one starts).  The rejected frame is
    dropped without a panic, and exactly one message, the decoded second
    frame, is offered on [dev.read]; it is received when a receiver is
    waiting and dropped otherwise. *)
Theorem decodeLoop_resynchronizes (pre post bad good : list Z) (Lb Lg : Z) (m : Message) :
  MESG_TX_SYNC ∉ pre -> MESG_TX_SYNC ∉ post ->
  0 <= Lb <= 251 -> len bad = Lb + 2 -> Decode (MESG_TX_SYNC :: Lb :: bad) = None ->
  0 <= Lg <= 251 -> len good = Lg + 2 -> Decode (MESG_TX_SYNC :: Lg :: good) = Some m ->
  decodeLoop (pre ++ (MESG_TX_SYNC :: Lb :: bad) ++ (MESG_TX_SYNC :: Lg :: good) ++ post) =
    ([Validate (MESG_TX_SYNC :: Lb :: bad); Validate (MESG_TX_SYNC :: Lg :: good); Offer m],
     Returned tt) /\
  forall ready : bool,
    deliver [ready]
      (offered (fst (decodeLoop
         (pre ++ (MESG_TX_SYNC :: Lb :: bad) ++ (MESG_TX_SYNC :: Lg :: good) ++ post)))) =
    if ready then [m] else [].
Proof.
  intros Hpre Hpost HLb Hbad Hrej HLg Hgood Hacc.
  assert (decodeLoop
            (pre ++ (MESG_TX_SYNC :: Lb :: bad) ++ (MESG_TX_SYNC :: Lg :: good) ++ post) =
          ([Validate (MESG_TX_SYNC :: Lb :: bad); Validate (MESG_TX_SYNC :: Lg :: good);
            Offer m], Returned tt)) as Hrun.
  { unfold decodeLoop. rewrite decode_seek by done.
    cbn [app].
    rewrite decode_frame by done.
    rewrite decode_frame by done.
    rewrite decode_seek_closed by done.
    unfold validate. rewrite Hrej, Hacc. reflexivity. }
  split; [done|]. intros ready. rewrite Hrun. by destruct ready.
Qed.

End DecoderClaims.

(** C2 at the frames [A4 01 01 09 00] (wrong checksum) and
    [A4 01 01 09 AD] of the exclusive-or codec. *)
Lemma decodeLoop_resynchronizes_witness :
  decodeLoop (H := xor_codec) ([] ++ [164; 1; 1; 9; 0] ++ [164; 1; 1; 9; 173] ++ []) =
    ([Validate [164; 1; 1; 9; 0]; Validate [164; 1; 1; 9; 173];
      Offer (NewMessage 1 [9])], Returned tt) /\
  forall ready : bool,
    deliver [ready]
      (offered (fst (decodeLoop (H := xor_codec)
         ([] ++ [164; 1; 1; 9; 0] ++ [164; 1; 1; 9; 173] ++ [])))) =
    if ready then [NewMessage 1 [9]] else [].
Proof.
  apply (decodeLoop_resynchronizes (H := xor_codec) [] [] [1; 9; 0] [1; 9; 173] 1 1
           (NewMessage 1 [9])).
  - apply not_elem_of_nil.
  - apply not_elem_of_nil.
  - lia.
  - reflexivity.
  - reflexivity.
  - lia.
  - reflexivity.
  - reflexivity.
Defined.

(** C6 at the stream [A4 FC]. *)
Lemma decodeLoop_closed_after_length_panics_witness :
  decodeLoop (H := xor_codec) ([] ++ [164; 252]) = ([], Panicked (PanicIndex 0 0)) /\
  decodeLoop (H := xor_codec) ([] ++ [164; 253]) = ([], Panicked (PanicIndex 1 1)).
Proof.
  apply (decodeLoop_closed_after_length_panics (H := xor_codec) []).
  apply not_elem_of_nil.
Defined.

(** C2 as stated fails when no receiver waits on [dev.read]: the second
    frame is decoded, and no message is emitted.  It also fails on a
    rejected frame whose length byte is 252: the decoder panics and never
    reaches the valid frame. *)
Lemma resynchronization_counterexample :
  xor_Decode [164; 1; 1; 9; 0] = None /\
  xor_Decode [164; 1; 1; 9; 173] = Some (NewMessage 1 [9]) /\
  deliver [false]
    (offered (fst (decodeLoop (H := xor_codec)
       ([164; 1; 1; 9; 0] ++ [164; 1; 1; 9; 173])))) = [] /\
  xor_Decode (164 :: 252 :: replicate 254 0) = None /\
  decodeLoop (H := xor_codec)
    ((164 :: 252 :: replicate 254 0) ++ [164; 1; 1; 9; 173]) =
    ([], Panicked (PanicIndex 0 0)).
Proof. vm_compute. repeat split; reflexivity. Qed.

(** ** The session *)

Section SessionFacts.
Context `{Codec}.

Lemma session_inv_started opened : session_inv (started opened).
Proof.
  unfold session_inv. simpl. repeat split; try done; try lia.
Qed.

Lemma forward_rank bs : loop_rank (forward bs) = 0%nat.
Proof. by destruct bs. Qed.

Lemma forward_exited bs : loop_exited (forward bs) = 0%nat.
Proof. by destruct bs. Qed.

Lemma after_recv_not_exited r : decodeLoop_exited (after_recv r) = 0%nat.
Proof. by destruct r. Qed.

Lemma after_recv_unwind r d : after_recv r <> DecodeUnwind d None.
Proof. by destruct r. Qed.

Lemma after_recv_not_exited' r : after_recv r <> DecodeExited.
Proof. by destruct r. Qed.

Lemma session_inv_step s l s' : session_inv s -> step s l s' -> session_inv s'.
Proof.
  unfold session_inv.
  intros (Hsig & Hdone & Hexit & Hclosed & Hdrv & Hunw & Hdec) Hstep.
  inversion Hstep; subst; simpl in *;
    repeat match goal with
    | |- context [if write_closed ?s then _ else _] => destruct (write_closed s)
    | |- context [if writeInTimeslot_closed ?s then _ else _] =>
        destruct (writeInTimeslot_closed s)
    | H : pc_loop _ = _ |- _ => rewrite H in *
    | H : pc_decodeLoop _ = _ |- _ => rewrite H in *
    | H : pc_Stop _ = _ |- _ => rewrite H in *
    | H : stop_recv_done (pc_Stop ?s) = Some _ |- _ =>
        destruct (pc_Stop s); simpl in H; inversion H; clear H; subst
    end; simpl in *;
    rewrite ?forward_rank, ?forward_exited, ?after_recv_not_exited in *;
    simpl in *.
  all: try (destruct ok; simpl in *).
  all: repeat split; intros;
    try (exfalso; eapply after_recv_unwind; eassumption);
    try (exfalso; eapply after_recv_not_exited'; eassumption);
    try done; try lia; try (by apply Hclosed); try (by eapply Hunw);
    try (by apply Hdec); try (apply Hclosed; lia); try (by apply Hdrv; lia);
    try (intuition (lia || congruence)).
  all: try match goal with
    | E : DecodeUnwind _ _ = DecodeUnwind _ None |- _ =>
        inversion E; subst; by eapply Hunw
    | p : option panic |- _ =>
        destruct p; [by left | right; by eapply Hunw]
    end.
Qed.

Lemma session_inv_trace opened ls s : trace (started opened) ls s -> session_inv s.
Proof.
  intros Ht. remember (started opened) as s0 eqn:Hs0.
  induction Ht as [|s ls s' l s'' Ht IH Hstep]; subst.
  - apply session_inv_started.
  - eapply session_inv_step; [by apply IH|done].
Qed.

End SessionFacts.

Section SessionClaims.
Context `{Codec}.

Lemma trace_cons s l s' ls s'' :
  step s l s' -> trace s' ls s'' -> trace s (l :: ls) s''.
Proof.
  intros Hstep Ht. induction Ht as [s0|s0 ls s1 l' s2 Ht IH Hstep'].
  - apply (trace_snoc s [] s l s0); [constructor|done].
  - change (l :: ls ++ [l']) with ((l :: ls) ++ [l']).
    eapply trace_snoc; [by apply IH|done].
Qed.

(** C7, as amended: the [select] of [loop].  The default branch (the
    inbound read) runs only when neither a shutdown signal nor a queued
    message is available, and then it can run; when a shutdown signal and
    a queued message are both available, the shutdown branch and the
    outbound branch can each be the one taken. *)
Theorem select_branches s :
  crashed s = false -> pc_loop s = LoopSelect ->
  (forall r s', step s (SelectDefault r) s' ->
     pc_Stop s <> StopSending /\ write_q s = []) /\
  (pc_Stop s <> StopSending -> write_q s = [] ->
     forall r, exists s', step s (SelectDefault r) s') /\
  (forall m q, pc_Stop s = StopSending -> write_q s = m :: q ->
     (exists s', step s SelectStopper s') /\
     (exists s', step s (SelectWrite m true) s')).
Proof.
  intros Hlive Hpc. split; [|split].
  - intros r s' Hstep. by inversion Hstep.
  - intros Hstop Hq r. eexists. by constructor.
  - intros m q Hstop Hq. split; eexists; by econstructor.
Qed.

(** C8: the timeslot channel is never received from.  In every execution
    the driver was handed exactly the encodings of the messages that [loop]
    received from [dev.write] (the [SelectWrite] steps), each of which a
    caller had sent on [dev.write]; and every message sent on
    [dev.writeInTimeslot] is still blocked in its send as long as that
    channel is open (closing it ends the blocked sends). *)
Theorem writeInTimeslot_never_received opened ls s :
  trace (started opened) ls s ->
  drained s = omap received_from_write ls /\
  written s = map Encode (drained s) /\
  drained s `prefix_of` omap sent_on_write ls /\
  (writeInTimeslot_closed s = false ->
     writeInTimeslot_q s = omap sent_on_writeInTimeslot ls) /\
  (writeInTimeslot_closed s = true -> writeInTimeslot_q s = []).
Proof.
  intros Ht.
  assert (drained s = omap received_from_write ls /\
          written s = map Encode (omap received_from_write ls) /\
          (write_closed s = false ->
             omap received_from_write ls ++ write_q s = omap sent_on_write ls) /\
          (write_closed s = true -> write_q s = []) /\
          omap received_from_write ls `prefix_of` omap sent_on_write ls /\
          (writeInTimeslot_closed s = false ->
             writeInTimeslot_q s = omap sent_on_writeInTimeslot ls) /\
          (writeInTimeslot_closed s = true -> writeInTimeslot_q s = [])) as Hinv.
  2:{ destruct Hinv as (Hd & Hw & _ & _ & Hpre & Hts & Htsc).
      rewrite Hd. tauto. }
  remember (started opened) as s0 eqn:Hs0.
  induction Ht as [|s ls s' l s'' Ht IH Hstep]; subst.
  - simpl. repeat split; done.
  - destruct (IH eq_refl) as (Hd & Hw & Hopen & Hclosed & Hpre & Hts & Htsc). clear IH.
    rewrite !omap_app.
    inversion Hstep; subst; simpl in *; rewrite ?app_nil_r.
    all: try (repeat split; intros; try done; by auto).
    + (* a caller sends on dev.write *)
      destruct (write_closed s') eqn:Hc; simpl; rewrite ?Hc;
        repeat split; intros; try done;
        try (by auto); try (by apply prefix_app_r);
        try (rewrite app_assoc; by rewrite Hopen).
    + (* a caller sends on dev.writeInTimeslot *)
      destruct (writeInTimeslot_closed s') eqn:Hc; simpl; rewrite ?Hc;
        repeat split; intros; try done; try (by auto);
        try (by apply Htsc); try (by rewrite Hts).
    + (* loop receives from dev.write *)
      destruct (write_closed s') eqn:Hc.
      { rewrite Hclosed in H2 by done. done. }
      specialize (Hopen eq_refl). rewrite H2 in Hopen.
      repeat split; intros; try done; try (by auto).
      * by rewrite Hd.
      * by rewrite Hw, map_app.
      * by rewrite <- app_assoc.
      * exists q. by rewrite <- app_assoc.
Qed.

End SessionClaims.

(** Building an execution step by step. *)
Ltac run_step :=
  eapply trace_cons; [econstructor; (reflexivity || discriminate)|]; simpl.

Lemma both_ready_reached :
  trace (H := xor_codec) (started true) [CallStop; BlockOnWrite sample_command] both_ready.
Proof. do 2 run_step. apply trace_nil. Qed.

(** C7 at [both_ready]. *)
Lemma select_branches_witness :
  (forall r s', step (H := xor_codec) both_ready (SelectDefault r) s' ->
     pc_Stop both_ready <> StopSending /\ write_q both_ready = []) /\
  (pc_Stop both_ready <> StopSending -> write_q both_ready = [] ->
     forall r, exists s', step (H := xor_codec) both_ready (SelectDefault r) s') /\
  (forall m q, pc_Stop both_ready = StopSending -> write_q both_ready = m :: q ->
     (exists s', step (H := xor_codec) both_ready SelectStopper s') /\
     (exists s', step (H := xor_codec) both_ready (SelectWrite m true) s')).
Proof.
  apply (select_branches (H := xor_codec) both_ready).
  - reflexivity.
  - reflexivity.
Defined.

(** C7 as stated fails at [both_ready], a state that a started session
    reaches: a shutdown signal and a queued message are both available, and
    [loop] can take the outbound branch. *)
Lemma select_priority_counterexample :
  trace (H := xor_codec) (started true) [CallStop; BlockOnWrite sample_command] both_ready /\
  pc_loop both_ready = LoopSelect /\
  pc_Stop both_ready = StopSending /\
  write_q both_ready = [sample_command] /\
  exists s', step (H := xor_codec) both_ready (SelectWrite sample_command true) s' /\
             pc_loop s' = LoopSelect /\ stop_signals s' = 0%nat /\
             written s' = [xor_Encode sample_command].
Proof.
  split; [apply both_ready_reached|]. repeat split.
  eexists. split; [by econstructor|]. repeat split.
Qed.

(** C8 on [timeslot_run]: the command was written, the burst packet is
    still blocked. *)
Lemma writeInTimeslot_never_received_witness :
  drained timeslot_run_end = omap received_from_write timeslot_run /\
  written timeslot_run_end = map (Encode (Codec := xor_codec)) (drained timeslot_run_end) /\
  drained timeslot_run_end `prefix_of` omap sent_on_write timeslot_run /\
  (writeInTimeslot_closed timeslot_run_end = false ->
     writeInTimeslot_q timeslot_run_end = omap sent_on_writeInTimeslot timeslot_run) /\
  (writeInTimeslot_closed timeslot_run_end = true ->
     writeInTimeslot_q timeslot_run_end = []).
Proof.
  apply (writeInTimeslot_never_received (H := xor_codec) true timeslot_run timeslot_run_end).
  unfold timeslot_run. do 3 run_step. apply trace_nil.
Defined.


(** ** More on the frame decoder *)

Section DecoderMore.
Context `{Codec}.

Lemma decode_from_run pc stream :
  decode_from pc stream =
    (fst (decode_run pc stream),
     match snd (decode_run pc stream) with
     | inl p => Panicked p
     | inr _ => Returned tt
     end).
Proof.
  revert pc. induction stream as [|b rest IH]; intros pc; [done|].
  simpl. destruct (dec_recv pc b) as [ev [p|pc']]; [done|].
  rewrite IH. by destruct (decode_run pc' rest) as [evs [p|pc'']].
Qed.


Lemma validate_shaped buf ev pc :
  frame_shaped buf -> validate buf = (ev, pc) ->
  Forall frame_shaped (validated ev) /\ dec_pc_ok pc /\ (length (offered ev) <= 1)%nat.
Proof.
  intros Hbuf Hv. unfold validate in Hv.
  destruct (Decode buf); inversion Hv; subst; simpl;
    repeat split; try lia; by repeat constructor.
Qed.

Lemma assemble_shaped L buf i ev pc :
  (exists rest, buf = MESG_TX_SYNC :: L :: rest) -> len buf = wrap8 (L + 4) -> 2 <= i ->
  assemble L buf i = (ev, pc) ->
  Forall frame_shaped (validated ev) /\ dec_pc_ok pc /\ (length (offered ev) <= 1)%nat.
Proof.
  intros [rest ->] Hlen Hi Ha. unfold assemble in Ha.
  destruct (decide (i < wrap8 (L + 4))).
  - inversion Ha; subst. simpl. repeat split; eauto; lia.
  - eapply validate_shaped; [|done]. by exists L, rest.
Qed.

(** One receive: the buffers handed to the codec are frame-shaped, at most
    one message is offered, the next receive is again well-formed, and the
    only panics are the stores of the sync and length bytes into a buffer
    of size 0 or 1. *)
Lemma dec_recv_ok pc b ev r :
  dec_pc_ok pc -> dec_recv pc b = (ev, r) ->
  Forall frame_shaped (validated ev) /\
  (length (offered ev) <= 1)%nat /\
  match r with
  | inr pc' => dec_pc_ok pc'
  | inl p =>
      pc = ReadingLength /\
      ((wrap8 (b + 4) = 0 /\ p = PanicIndex 0 0) \/
       (wrap8 (b + 4) = 1 /\ p = PanicIndex 1 1))
  end.
Proof.
  intros Hpc Hr. destruct pc as [| |L buf i]; simpl in Hr.
  - destruct (decide (b <> MESG_TX_SYNC)); inversion Hr; subst; simpl;
      repeat split; (lia || constructor).
  - assert (0 <= wrap8 (b + 4) < 256) as Hn by (apply Z.mod_pos_bound; lia).
    unfold make in Hr.
    destruct (Z.to_nat (wrap8 (b + 4))) as [|[|n]] eqn:Hsz.
    + simpl in Hr. inversion Hr; subst. simpl.
      split; [constructor|]. split; [lia|]. split; [done|].
      left. split; [lia|done].
    + simpl in Hr. inversion Hr; subst. simpl.
      split; [constructor|]. split; [lia|]. split; [done|].
      right. split; [lia|done].
    + rewrite !replicate_S, store_0, store_1 in Hr.
      destruct (assemble b (MESG_TX_SYNC :: b :: replicate n 0) 2) as [ev' pc'] eqn:Ha.
      inversion Hr; subst.
      apply assemble_shaped in Ha; [tauto|eauto| |lia].
      unfold len. simpl. rewrite length_replicate. lia.
  - destruct Hpc as ([rest ->] & Hlen & Hi).
    unfold store in Hr. destruct (decide _) as [_|Hn]; [|lia].
    destruct (assemble L (<[Z.to_nat i:=b]> (MESG_TX_SYNC :: L :: rest)) (i + 1))
      as [ev' pc'] eqn:Ha.
    inversion Hr; subst.
    apply assemble_shaped in Ha; [tauto| | |lia].
    + replace (Z.to_nat i) with (S (S (Z.to_nat (i - 2)))) by lia. simpl. eauto.
    + unfold len in *. by rewrite length_insert.
Qed.

Lemma decode_run_ok pc stream :
  dec_pc_ok pc ->
  Forall frame_shaped (validated (fst (decode_run pc stream))) /\
  match snd (decode_run pc stream) with
  | inr pc' => dec_pc_ok pc'
  | inl p => p = PanicIndex 0 0 \/ p = PanicIndex 1 1
  end.
Proof.
  revert pc. induction stream as [|b rest IH]; intros pc Hpc.
  - simpl. split; [constructor|done].
  - simpl. destruct (dec_recv pc b) as [ev r] eqn:Hr.
    destruct (dec_recv_ok pc b ev r Hpc Hr) as (Hev & _ & Hnext).
    destruct r as [p|pc'].
    + simpl. split; [done|]. destruct Hnext as [_ [[_ ->]|[_ ->]]]; auto.
    + destruct (IH pc' Hnext) as [Hevs Hres].
      destruct (decode_run pc' rest) as [evs r']. simpl in *.
      split; [|done]. unfold validated in *. rewrite omap_app.
      by apply Forall_app.
Qed.

(** Whatever the byte stream, every buffer that [decodeLoop] hands to
    [Decode] starts with the sync byte followed by the length byte [L]
    that was read, and has [(L+4) mod 256] bytes. *)
Theorem decodeLoop_validates_frame_shaped (stream buf : list Z) :
  buf ∈ validated (fst (decodeLoop stream)) -> frame_shaped buf.
Proof.
  unfold decodeLoop. rewrite decode_from_run. simpl.
  destruct (decode_run_ok SeekingSync stream I) as [Hall _].
  intros Hin. rewrite Forall_forall in Hall.
  apply Hall. by apply list_elem_of_In.
Qed.

(** [decodeLoop] panics in two ways only: storing the sync byte into an
    empty buffer, or the length byte into a one-byte buffer. *)
Theorem decodeLoop_panics_only_on_short_buffer (stream : list Z) p :
  snd (decodeLoop stream) = Panicked p -> p = PanicIndex 0 0 \/ p = PanicIndex 1 1.
Proof.
  unfold decodeLoop. rewrite decode_from_run. simpl.
  destruct (decode_run_ok SeekingSync stream I) as [_ Hres].
  destruct (snd (decode_run SeekingSync stream)); [|done].
  by intros [= <-].
Qed.

Lemma safe_byte_size b : safe_byte b -> 2 <= wrap8 (b + 4).
Proof.
  intros (Hb & H252 & H253). unfold wrap8.
  destruct (decide (b < 252)).
  - rewrite Z.mod_small by lia. lia.
  - replace (b + 4) with (b - 252 + 1 * 256) by lia.
    rewrite Z.mod_add, Z.mod_small by lia. lia.
Qed.

Lemma decode_run_safe pc stream :
  dec_pc_ok pc -> Forall safe_byte stream ->
  exists pc', snd (decode_run pc stream) = inr pc'.
Proof.
  revert pc. induction stream as [|b rest IH]; intros pc Hpc Hs; [by eexists|].
  inversion Hs as [|? ? Hb Hs']; subst. apply safe_byte_size in Hb.
  simpl. destruct (dec_recv pc b) as [ev r] eqn:Hr.
  destruct (dec_recv_ok pc b ev r Hpc Hr) as (_ & _ & Hnext).
  destruct r as [p|pc']; [destruct Hnext as [_ [[? _]|[? _]]]; lia|].
  destruct (IH pc' Hnext Hs') as [pc'' Hpc''].
  destruct (decode_run pc' rest). simpl in *. eauto.
Qed.

(** On a stream of bytes none of which is 252 or 253, [decodeLoop] does
    not panic: it returns when the channel is closed. *)
Theorem decodeLoop_returns_on_safe_bytes (stream : list Z) :
  Forall safe_byte stream -> snd (decodeLoop stream) = Returned tt.
Proof.
  intros Hs. unfold decodeLoop. rewrite decode_from_run. simpl.
  destruct (decode_run_safe SeekingSync stream I Hs) as [pc' ->]. done.
Qed.

Lemma decode_frames (items : list (list Z * Message)) (trailing : list Z) :
  Forall (fun it => (MESG_TX_SYNC ∉ fst it) /\ well_encoded (snd it)) items ->
  MESG_TX_SYNC ∉ trailing ->
  decodeLoop (framed items ++ trailing) =
    (concat (map (fun it => [Validate (Encode (snd it)); Offer (snd it)]) items),
     Returned tt).
Proof.
  intros Hitems Htrail. unfold decodeLoop.
  induction Hitems as [|[noise m] items [Hnoise (L & body & Henc & HL & Hbody & Hdec)] _ IH].
  - simpl. by apply decode_seek_closed.
  - unfold framed. simpl in *. fold (framed items).
    rewrite <- !app_assoc. rewrite decode_seek by done.
    rewrite Henc in *. cbn [app].
    rewrite (decode_frame L body (framed items ++ trailing)) by done.
    rewrite IH. unfold validate. by rewrite Hdec.
Qed.

(** Framing round trip and order: encoded messages, each after any bytes
    other than the sync byte, are handed to the codec and offered on
    [dev.read] one by one, in the order received, and nothing else is. *)
Theorem decodeLoop_round_trip (items : list (list Z * Message)) (trailing : list Z) :
  Forall (fun it => (MESG_TX_SYNC ∉ fst it) /\ well_encoded (snd it)) items ->
  MESG_TX_SYNC ∉ trailing ->
  decodeLoop (framed items ++ trailing) =
    (concat (map (fun it => [Validate (Encode (snd it)); Offer (snd it)]) items),
     Returned tt).
Proof. apply decode_frames. Qed.

End DecoderMore.

(** [decodeLoop_returns_on_safe_bytes] on a stream with a sync byte and a
    partial frame. *)
Lemma decodeLoop_returns_on_safe_bytes_witness :
  snd (decodeLoop (H := xor_codec) [7; 164; 3; 78; 1; 164; 254]) = Returned tt.
Proof.
  apply (decodeLoop_returns_on_safe_bytes (H := xor_codec) [7; 164; 3; 78; 1; 164; 254]).
  repeat constructor; lia.
Defined.

(** [decodeLoop_round_trip] on two messages of the exclusive-or codec, the
    first after two bytes of noise. *)
Lemma decodeLoop_round_trip_witness :
  decodeLoop (H := xor_codec)
    (framed (H := xor_codec)
       [([1; 2], NewMessage 78 [1; 2; 3]); ([], NewMessage 1 [9])] ++ [7]) =
    (concat (map (fun it => [Validate (xor_Encode (snd it)); Offer (snd it)])
       [([1; 2], NewMessage 78 [1; 2; 3]); ([], NewMessage 1 [9])]),
     Returned tt).
Proof.
  apply (decodeLoop_round_trip (H := xor_codec)
           [([1; 2], NewMessage 78 [1; 2; 3]); ([], NewMessage 1 [9])] [7]).
  - repeat constructor; simpl.
    + intros Hin. repeat (apply elem_of_cons in Hin as [Hin|Hin]; [discriminate|]).
      by apply elem_of_nil in Hin.
    + exists 3, [78; 1; 2; 3; 233]. repeat split; (reflexivity || lia).
    + apply not_elem_of_nil.
    + exists 1, [1; 9; 173]. repeat split; (reflexivity || lia).
  - intros Hin. apply elem_of_cons in Hin as [Hin|Hin]; [discriminate|].
    by apply elem_of_nil in Hin.
Defined.

(** [decodeLoop_validates_frame_shaped] on the buffer of a wrapped length
    byte: after [A4 FF 01] the codec is handed these 3 bytes. *)
Lemma decodeLoop_validates_frame_shaped_witness :
  frame_shaped (H := xor_codec) [164; 255; 1].
Proof.
  apply (decodeLoop_validates_frame_shaped (H := xor_codec) [164; 255; 1; 5] [164; 255; 1]).
  vm_compute. by left.
Defined.

(** [decodeLoop_panics_only_on_short_buffer] on the stream [A4 FD]. *)
Lemma decodeLoop_panics_only_on_short_buffer_witness :
  PanicIndex 1 1 = PanicIndex 0 0 \/ PanicIndex 1 1 = PanicIndex 1 1.
Proof.
  apply (decodeLoop_panics_only_on_short_buffer (H := xor_codec) [164; 253]).
  reflexivity.
Defined.

(** ** More on the session *)

Section SessionMore.
Context `{Codec}.

Lemma channels_inv_started opened : channels_inv (started opened).
Proof.
  unfold channels_inv. simpl. repeat split; intros; try done; try lia.
Qed.

Lemma after_recv_rank r : (decodeLoop_rank (after_recv r) <= 1)%nat.
Proof. destruct r; simpl; lia. Qed.

Lemma channels_inv_step s l s' : channels_inv s -> step s l s' -> channels_inv s'.
Proof.
  unfold channels_inv.
  intros (Hts & Hw & Hr & Hwq & Htq & Hsel & Hpanic & Hnone & Hex) Hstep.
  inversion Hstep; subst; simpl in *;
    repeat match goal with
    | |- context [if write_closed ?s then _ else _] =>
        destruct (write_closed s) eqn:?
    | |- context [if writeInTimeslot_closed ?s then _ else _] =>
        destruct (writeInTimeslot_closed s) eqn:?
    | H : pc_loop _ = _ |- _ => rewrite H in *
    | H : pc_decodeLoop _ = _ |- _ => rewrite H in *
    | H : pc_Stop _ = _ |- _ => rewrite H in *
    | H : stop_recv_done (pc_Stop ?s) = Some _ |- _ =>
        destruct (pc_Stop s); simpl in H; inversion H; clear H; subst
    end; simpl in *;
    rewrite ?forward_rank in *; simpl in *.
  all: try (destruct ok; simpl in *).
  all: try (pose proof (after_recv_rank (snd (dec_recv pc v)))).
  all: try (destruct p as [p|];
            [ try (specialize (Hpanic _ _ eq_refl); simpl in Hpanic; lia)
            | try (specialize (Hnone _ eq_refl); simpl in Hnone) ]).
  all: repeat split; intros; simpl in *;
    try done; try lia; try congruence;
    try (by apply Hts); try (by apply Hw); try (by apply Hr);
    try (by apply Hwq); try (by apply Htq);
    try (apply Hts; lia); try (apply Hw; lia); try (apply Hr; lia);
    try (by eapply Hpanic); try (by eapply Hnone); try (by apply Hex);
    try (destruct bs; simpl in *; done);
    try (intuition (lia || congruence)).
  all: try match goal with
    | Hx : pc_loop _ = LoopUnwind _ None |- _ =>
        specialize (Hnone _ Hx); simpl in *; lia
    | Hx : pc_loop _ = LoopExited |- _ => specialize (Hex Hx); simpl in *; lia
    | Hx : pc_loop _ = LoopUnwind _ (Some _) |- _ =>
        specialize (Hpanic _ _ Hx); simpl in *; lia
    end.
  all: try match goal with
    | Hx : forward ?bs = _ |- _ => by destruct bs
    end.
Qed.

Lemma channels_inv_trace opened ls s : trace (started opened) ls s -> channels_inv s.
Proof.
  intros Ht. remember (started opened) as s0 eqn:Hs0.
  induction Ht as [|s ls s' l s'' Ht IH Hstep]; subst.
  - apply channels_inv_started.
  - eapply channels_inv_step; [by apply IH|done].
Qed.

(** After [Stop] has returned every channel of the session is closed and
    no sender is left blocked; the only steps left are commands sending on
    an outbound channel, and each of them panics (send on closed channel). *)
Theorem after_Stop_commands_panic opened ls s :
  trace (started opened) ls s -> pc_Stop s = StopReturned ->
  (write_closed s = true /\ writeInTimeslot_closed s = true /\
   decoder_closed s = true /\ read_closed s = true) /\
  (write_q s = [] /\ writeInTimeslot_q s = []) /\
  (forall l s', step s l s' ->
     (exists m, l = BlockOnWrite m \/ l = BlockOnWriteInTimeslot m) /\
     crashed s' = true).
Proof.
  intros Ht Hret.
  pose proof (session_inv_trace _ _ _ Ht) as (_ & Hdone & Hexit & Hdc & _).
  pose proof (channels_inv_trace _ _ _ Ht)
    as (Hts & Hw & Hr & Hwq & Htq & _).
  rewrite Hret in Hdone. simpl in Hdone.
  assert (pc_loop s = LoopExited /\ pc_decodeLoop s = DecodeExited) as [Hl Hd].
  { destruct (pc_loop s), (pc_decodeLoop s); simpl in *; (done || lia). }
  rewrite Hl in *. rewrite Hd in *. simpl in *.
  assert (write_closed s = true) as Hwc by (apply Hw; lia).
  assert (writeInTimeslot_closed s = true) as Htc by (apply Hts; lia).
  repeat split; try (by auto); try (apply Hdc; lia); try (apply Hr; lia).
  - inversion H0; subst; eauto; congruence.
  - inversion H0; subst; simpl; rewrite ?Hwc, ?Htc; try done; congruence.
Qed.

(** Once [loop] has left its [select] loop (on the shutdown signal or on
    a failed write) it never comes back, and nothing more is handed to the
    driver: messages still queued on [dev.write] are not written. *)
Lemma no_write_after_select s ls s' :
  trace s ls s' -> (1 <= loop_rank (pc_loop s))%nat ->
  (loop_rank (pc_loop s) <= loop_rank (pc_loop s'))%nat /\
  written s' = written s /\ drained s' = drained s.
Proof.
  intros Ht Hrank. induction Ht as [|s ls s' l s'' Ht IH Hstep]; [done|].
  destruct (IH Hrank) as (Hle & Hw & Hd).
  inversion Hstep; subst; simpl in *;
    repeat match goal with
    | |- context [if ?b then _ else _] => destruct b
    | Hx : pc_loop _ = _ |- _ => rewrite Hx in *
    end; simpl in *; repeat split; (done || lia).
Qed.

Theorem no_write_after_shutdown_signal opened ls s ls' s' :
  trace (started opened) ls s -> (2 <= stop_rank (pc_Stop s))%nat ->
  trace s ls' s' ->
  written s' = written s /\ pc_loop s' <> LoopSelect.
Proof.
  intros Ht Hstop Ht'.
  pose proof (channels_inv_trace _ _ _ Ht) as (_ & _ & _ & _ & _ & Hsel & _).
  assert (1 <= loop_rank (pc_loop s))%nat as Hrank.
  { destruct (loop_rank (pc_loop s)) eqn:Hr; [specialize (Hsel eq_refl)|]; lia. }
  destruct (no_write_after_select _ _ _ Ht' Hrank) as (Hle & Hw & _).
  split; [done|]. intros Heq. rewrite Heq in Hle. simpl in Hle. lia.
Qed.

Lemma panicking_loop_step s l s' d p :
  pc_loop s = LoopUnwind d (Some p) -> (stop_rank (pc_Stop s) <= 1)%nat ->
  step s l s' ->
  (exists d', pc_loop s' = LoopUnwind d' (Some p)) /\ (stop_rank (pc_Stop s') <= 1)%nat.
Proof.
  intros Hpc Hstop Hstep.
  inversion Hstep; subst; simpl in *;
    repeat match goal with
    | |- context [if ?b then _ else _] => destruct b
    | Hx : pc_loop _ = _ |- _ => rewrite Hx in *
    | Hx : pc_Stop _ = _ |- _ => rewrite Hx in *
    | Hx : stop_recv_done (pc_Stop ?s) = Some _ |- _ =>
        destruct (pc_Stop s); simpl in *; try lia; discriminate
    end; simpl in *; try discriminate;
    try match goal with Hx : LoopUnwind _ _ = LoopUnwind _ _ |- _ =>
      inversion Hx; subst end;
    split; eauto; lia.
Qed.

Lemma panicking_loop_trace s ls s' d p :
  trace s ls s' ->
  pc_loop s = LoopUnwind d (Some p) -> (stop_rank (pc_Stop s) <= 1)%nat ->
  (exists d', pc_loop s' = LoopUnwind d' (Some p)) /\ (stop_rank (pc_Stop s') <= 1)%nat.
Proof.
  intros Ht Hpc Hstop. induction Ht as [|s ls s' l s'' Ht IH Hstep]; [eauto|].
  destruct (IH Hpc Hstop) as [[d' Hd'] Hs'].
  by eapply panicking_loop_step.
Qed.

(** A failed [driver.Write] does not end the session: [loop] panics, runs
    its deferred calls and then stays blocked in its send on [dev.done];
    [Stop], called before or after, never gets its shutdown signal
    received, and nothing more is written. *)
Theorem write_error_blocks_Stop opened ls s m s1 ls' s' :
  trace (started opened) ls s -> step s (SelectWrite m false) s1 ->
  trace s1 ls' s' ->
  (exists d, pc_loop s' = LoopUnwind d (Some PanicWrite)) /\
  (stop_rank (pc_Stop s') <= 1)%nat /\
  pc_Stop s' <> StopReturned /\
  written s' = written s1.
Proof.
  intros Ht Hstep Ht'.
  pose proof (channels_inv_trace _ _ _ Ht) as (_ & _ & _ & _ & _ & Hsel & _).
  assert (pc_loop s1 = LoopUnwind CloseWriteInTimeslot (Some PanicWrite) /\
          (stop_rank (pc_Stop s1) <= 1)%nat) as [Hd1 Hs1].
  { inversion Hstep; subst; simpl in *.
    match goal with Hx : pc_loop s = LoopSelect |- _ => rewrite Hx in Hsel end.
    split; [done|]. by apply Hsel. }
  destruct (panicking_loop_trace _ _ _ _ _ Ht' Hd1 Hs1) as [Hd' Hs'].
  destruct (no_write_after_select _ _ _ Ht') as (_ & Hw & _).
  { rewrite Hd1. simpl. lia. }
  repeat split; try done. intros Hret. rewrite Hret in Hs'. simpl in Hs'. lia.
Qed.

Lemma stuck_loop_step s l s' bs :
  pc_loop s = LoopForward bs -> (forall pc, pc_decodeLoop s <> DecodeRecv pc) ->
  (stop_rank (pc_Stop s) <= 1)%nat -> step s l s' ->
  pc_loop s' = LoopForward bs /\ (forall pc, pc_decodeLoop s' <> DecodeRecv pc) /\
  (stop_rank (pc_Stop s') <= 1)%nat /\ written s' = written s /\
  decodeLoop_exited (pc_decodeLoop s') = decodeLoop_exited (pc_decodeLoop s).
Proof.
  intros Hpc Hdec Hstop Hstep.
  inversion Hstep; subst; simpl in *;
    repeat match goal with
    | |- context [if ?b then _ else _] => destruct b
    | Hx : pc_loop _ = _ |- _ => rewrite Hx in *
    | Hx : pc_Stop _ = _ |- _ => rewrite Hx in *
    | Hx : pc_decodeLoop ?s = DecodeRecv ?pc |- _ => by destruct (Hdec pc)
    | Hx : stop_recv_done (pc_Stop ?s) = Some _ |- _ =>
        destruct (pc_Stop s); simpl in *; try lia; discriminate
    end; simpl in *; try discriminate;
    repeat split; try done; try lia.
  all: try (match goal with Hx : pc_decodeLoop _ = _ |- _ => rewrite Hx end; done).
Qed.

(** If [decodeLoop] has left its loop (it panicked) while [loop] still has
    bytes to send on [dev.decoder], the session is stuck: [loop] stays
    blocked in that send, neither goroutine completes, nothing more is
    written, and [Stop] never returns. *)
Theorem decoder_panic_blocks_loop opened ls s bs ls' s' :
  trace (started opened) ls s ->
  pc_loop s = LoopForward bs -> (forall pc, pc_decodeLoop s <> DecodeRecv pc) ->
  trace s ls' s' ->
  pc_loop s' = LoopForward bs /\
  pc_decodeLoop s' <> DecodeExited /\
  pc_Stop s' <> StopReturned /\
  written s' = written s.
Proof.
  intros Ht Hpc Hdec Ht'.
  pose proof (channels_inv_trace _ _ _ Ht) as (_ & _ & _ & _ & _ & Hsel & _).
  pose proof (session_inv_trace _ _ _ Ht) as (_ & Hdone & Hexit & _).
  assert (stop_rank (pc_Stop s) <= 1)%nat as Hstop
    by (apply Hsel; by rewrite Hpc).
  assert (decodeLoop_exited (pc_decodeLoop s) = 0%nat) as Hne.
  { rewrite Hpc in Hexit. simpl in Hexit. lia. }
  assert (pc_loop s' = LoopForward bs /\ (forall pc, pc_decodeLoop s' <> DecodeRecv pc) /\
          (stop_rank (pc_Stop s') <= 1)%nat /\ written s' = written s /\
          decodeLoop_exited (pc_decodeLoop s') = 0%nat) as (Hl & _ & Hs & Hw & He).
  { clear Ht Hsel Hdone Hexit.
    induction Ht' as [|s ls1 s1 l s2 Ht' IH Hstep]; [done|].
    destruct (IH Hpc Hdec Hstop Hne) as (Hl1 & Hd1 & Hs1 & Hw1 & He1).
    destruct (stuck_loop_step _ _ _ _ Hl1 Hd1 Hs1 Hstep) as (? & ? & ? & ? & ?).
    repeat split; try done; congruence. }
  repeat split; try done.
  - intros Hex. rewrite Hex in He. done.
  - intros Hret. rewrite Hret in Hs. simpl in Hs. lia.
Qed.








End SessionMore.

(** ** Shutdown *)

Section Shutdown.
Context `{Codec}.








End Shutdown.


(** The exception made for a panic in C9 is needed: on [panicked_run]
    [decodeLoop] panics on the length byte 252, [Stop] receives both
    completion signals and returns, and [decodeLoop] never saw the byte
    channel closed. *)
Lemma panicked_decoder_completes_unseen :
  trace (H := xor_codec) (started true) panicked_run panicked_end /\
  pc_Stop panicked_end = StopReturned /\
  decoder_panicked (H := xor_codec) panicked_run /\
  DecoderSeesClosed ∉ panicked_run.
Proof.
  split; [|split; [done|split]].
  - unfold panicked_run. do 12 run_step. apply trace_nil.
  - exists (PanicIndex 0 0). vm_compute. reflexivity.
  - unfold panicked_run. rewrite !not_elem_of_cons. repeat split; try discriminate.
    apply not_elem_of_nil.
Qed.

(** [after_Stop_commands_panic] on [shutdown_run]. *)
Lemma after_Stop_commands_panic_witness :
  (write_closed stopped = true /\ writeInTimeslot_closed stopped = true /\
   decoder_closed stopped = true /\ read_closed stopped = true) /\
  (write_q stopped = [] /\ writeInTimeslot_q stopped = []) /\
  (forall l s', step (H := xor_codec) stopped l s' ->
     (exists m, l = BlockOnWrite m \/ l = BlockOnWriteInTimeslot m) /\
     crashed s' = true).
Proof.
  apply (after_Stop_commands_panic (H := xor_codec) true shutdown_run stopped).
  - unfold shutdown_run. do 10 run_step. apply trace_nil.
  - reflexivity.
Defined.

(** [no_write_after_shutdown_signal] on [shutdown_pending], where a
    command is still queued. *)
Lemma no_write_after_shutdown_signal_witness :
  written shutdown_pending_next = written shutdown_pending /\
  pc_loop shutdown_pending_next <> LoopSelect.
Proof.
  apply (no_write_after_shutdown_signal (H := xor_codec) true
           [CallStop; BlockOnWrite sample_command; SelectStopper] shutdown_pending
           [LoopDeferred CloseWriteInTimeslot] shutdown_pending_next).
  - do 3 run_step. apply trace_nil.
  - simpl. lia.
  - run_step. apply trace_nil.
Defined.

(** [write_error_blocks_Stop] on a failed write of the first command. *)
Lemma write_error_blocks_Stop_witness :
  (exists d, pc_loop write_failed_next = LoopUnwind d (Some PanicWrite)) /\
  (stop_rank (pc_Stop write_failed_next) <= 1)%nat /\
  pc_Stop write_failed_next <> StopReturned /\
  written write_failed_next = written write_failed.
Proof.
  apply (write_error_blocks_Stop (H := xor_codec) true
           [BlockOnWrite sample_command]
           (set_write_q [sample_command] (started true)) sample_command write_failed
           [LoopDeferred CloseWriteInTimeslot; CallStop] write_failed_next).
  - run_step. apply trace_nil.
  - apply (step_SelectWrite (H := xor_codec)
             (set_write_q [sample_command] (started true)) sample_command [] false);
      reflexivity.
  - do 2 run_step. apply trace_nil.
Defined.

(** [decoder_panic_blocks_loop] on [stuck]. *)
Lemma decoder_panic_blocks_loop_witness :
  pc_loop stuck_next = LoopForward [0] /\
  pc_decodeLoop stuck_next <> DecodeExited /\
  pc_Stop stuck_next <> StopReturned /\
  written stuck_next = written stuck.
Proof.
  apply (decoder_panic_blocks_loop (H := xor_codec) true stuck_run stuck [0]
           [DecodeLoopDeferred CloseRead; CallStop] stuck_next).
  - unfold stuck_run. do 3 run_step. apply trace_nil.
  - reflexivity.
  - intros pc. discriminate.
  - do 2 run_step. apply trace_nil.
Defined.



(** ** More on the command layer *)

Section CommandsMore.
Context `{Codec} `{Constants}.

Lemma copy_8 (data : list Z) : len data = 8 -> copy (make 8) data = data.
Proof.
  intros Hlen. unfold len in Hlen. unfold copy, make. simpl.
  replace (length data) with 8%nat by lia. simpl.
  rewrite firstn_all2 by lia. by rewrite app_nil_r.
Qed.

(** With 8 bytes of data (a network key has 8 bytes by its type) the unit
    payload commands send exactly one message whose 9-byte payload is the
    channel byte followed by the data, unchanged: the broadcast and the
    network key on [dev.write], acknowledged data and burst packets on
    [dev.writeInTimeslot]. *)
Theorem unit_payload_commands (channel : Z) (data : list Z) :
  len data = 8 ->
  SendBroadcastData channel data =
    ([(ChWrite, NewMessage MESG_BROADCAST_DATA_ID (channel :: data))], Returned tt) /\
  SendAcknowledgedData channel data =
    ([(ChWriteInTimeslot, NewMessage MESG_ACKNOWLEDGED_DATA_ID (channel :: data))],
     Returned tt) /\
  SendBurstTransferPacket channel data =
    ([(ChWriteInTimeslot, NewMessage MESG_BURST_DATA_ID (channel :: data))],
     Returned tt) /\
  SetNetworkKey channel data =
    ([(ChWrite, NewMessage MESG_NETWORK_KEY_ID (channel :: data))], Returned tt).
Proof.
  intros Hlen.
  unfold SendBroadcastData, SendAcknowledgedData, SendBurstTransferPacket, SetNetworkKey.
  destruct (decide (len data <> 8)); [done|].
  by rewrite copy_8.
Qed.

Lemma PutUint16_at_1 c b1 b2 (rest : list Z) v :
  PutUint16_at (c :: b1 :: b2 :: rest) 1 v =
    inr (c :: wrap8 v :: wrap8 (Z.shiftr v 8) :: rest).
Proof.
  unfold PutUint16_at, slice.
  assert (len (c :: b1 :: b2 :: rest) = 3 + len rest) as Hl
    by (unfold len; simpl; lia).
  assert (0 <= len rest) by (unfold len; lia).
  destruct (decide _) as [_|Hn]; [|lia].
  destruct (decide _) as [_|Hn].
  - rewrite store_1. apply store_2.
  - exfalso. apply Hn. unfold len in *. rewrite length_take, length_drop.
    simpl in *. lia.
Qed.

Lemma uint16_bytes v :
  0 <= v < 65536 ->
  0 <= wrap8 v < 256 /\ 0 <= wrap8 (Z.shiftr v 8) < 256 /\
  uint16_le (wrap8 v) (wrap8 (Z.shiftr v 8)) = v.
Proof.
  intros Hv. unfold wrap8, uint16_le.
  rewrite Z.shiftr_div_pow2 by lia. change (2 ^ 8) with 256.
  assert (0 <= v / 256 < 256) by (split; [apply Z.div_pos|apply Z.div_lt_upper_bound]; lia).
  rewrite (Z.mod_small (v / 256)) by lia.
  pose proof (Z.mod_pos_bound v 256 ltac:(lia)).
  pose proof (Z.div_mod v 256 ltac:(lia)). lia.
Qed.

(** The 16-bit fields: [SetChannelId], [SetChannelPeriod] and
    [AddChannelID] send one message on [dev.write] whose payload carries
    the device number or period in bytes 1 and 2, low byte first, the other
    bytes in argument order; reading the two bytes back gives the value. *)
Theorem uint16_fields_little_endian (channel v deviceType transmissionType index : Z) :
  0 <= v < 65536 ->
  exists lo hi,
    (0 <= lo < 256 /\ 0 <= hi < 256 /\ uint16_le lo hi = v) /\
    SetChannelId channel v deviceType transmissionType =
      ([(ChWrite, NewMessage MESG_CHANNEL_ID_ID
                    [channel; lo; hi; deviceType; transmissionType])], Returned tt) /\
    SetChannelPeriod channel v =
      ([(ChWrite, NewMessage MESG_CHANNEL_MESG_PERIOD_ID [channel; lo; hi])],
       Returned tt) /\
    AddChannelID channel v deviceType transmissionType index =
      ([(ChWrite, NewMessage MESG_ID_LIST_ADD_ID
                    [channel; lo; hi; deviceType; transmissionType; index])],
       Returned tt).
Proof.
  intros Hv. exists (wrap8 v), (wrap8 (Z.shiftr v 8)).
  split; [by apply uint16_bytes|].
  unfold SetChannelId, SetChannelPeriod, AddChannelID.
  by rewrite !PutUint16_at_1.
Qed.

(** [SetSearchWaveform] fails its argument check, before any send,
    exactly for the waveforms other than 97 and 316.  For these two it has
    one send, on [dev.write], under the id [MESG_RADIO_TX_POWER_ID], with
    payload the channel, the low byte and the high byte of the waveform;
    the call returns when this send is taken, panics when the channel is
    closed, and stays blocked otherwise. *)
Theorem SetSearchWaveform_accepts (channel searchWaveform : Z) (env : nat -> fate) :
  (SetSearchWaveform channel searchWaveform = ([], Panicked PanicSearchWaveform) <->
   searchWaveform <> 97 /\ searchWaveform <> 316) /\
  (searchWaveform = 97 \/ searchWaveform = 316 ->
   exists lo hi,
     (0 <= lo < 256 /\ 0 <= hi < 256 /\ uint16_le lo hi = searchWaveform) /\
     sent (SetSearchWaveform channel searchWaveform) =
       [(ChWrite, NewMessage MESG_RADIO_TX_POWER_ID [channel; lo; hi])] /\
     perform (SetSearchWaveform channel searchWaveform) env =
       match env 0%nat with
       | Taken =>
           ([(ChWrite, NewMessage MESG_RADIO_TX_POWER_ID [channel; lo; hi])],
            Ended (Returned tt))
       | ChannelClosed =>
           ([], SendOnClosed ChWrite (NewMessage MESG_RADIO_TX_POWER_ID [channel; lo; hi]))
       | NeverTaken =>
           ([], BlockedIn ChWrite (NewMessage MESG_RADIO_TX_POWER_ID [channel; lo; hi]))
       end).
Proof.
  unfold perform, SetSearchWaveform. split.
  - destruct (decide _) as [[]|Hn]; simpl; split; try done; try lia.
  - intros [-> | ->].
    + exists 97, 0. split; [unfold uint16_le; lia|].
      destruct (decide _) as [[]|_]; [done|]. split; [done|].
      simpl. by destruct (env 0%nat).
    + exists 60, 1. split; [unfold uint16_le; lia|].
      destruct (decide _) as [[]|_]; [done|]. split; [done|].
      simpl. by destruct (env 0%nat).
Qed.

Lemma for_range_sent_on (ch : outbound) (body : Z -> cmd unit) idx :
  (forall i e, e ∈ sent (body i) -> fst e = ch) ->
  forall e, e ∈ sent (for_range idx body) -> fst e = ch.
Proof.
  intros Hbody. induction idx as [|i idx IH]; intros e He; simpl in He.
  - by apply elem_of_nil in He.
  - unfold cmd_bind in He. specialize (Hbody i).
    destruct (body i) as [s [[]|p]]; simpl in *.
    + destruct (for_range idx body) as [s' r]. simpl in *.
      apply elem_of_app in He as [He|He]; [by apply Hbody|by apply IH].
    + by apply Hbody.
Qed.

(** Every command sends on one channel only: acknowledged data and burst
    packets on [dev.writeInTimeslot], everything else on [dev.write]. *)
Theorem commands_use_one_channel (c : command) ch m :
  (ch, m) ∈ sent (call c) -> ch = channel_of c.
Proof.
  intros Hin.
  assert (forall (s : cmd unit) ch', (forall e, e ∈ sent s -> fst e = ch') ->
            (ch, m) ∈ sent s -> ch = ch') as Hone.
  { intros s ch' Hs He. by apply (Hs (ch, m)). }
  destruct c; simpl in *;
    unfold SetChannelId, SetChannelPeriod, AddChannelID in *;
    rewrite ?PutUint16_at_1 in *;
    unfold SetSearchWaveform, SendBroadcastData, SendAcknowledgedData,
      SendBurstTransferPacket in *;
    repeat match goal with
    | He : context [decide ?P] |- _ => destruct (decide P)
    end; simpl in *;
    try (by apply elem_of_nil in Hin);
    try (apply list_elem_of_singleton in Hin; by inversion Hin).
  eapply Hone; [|exact Hin]. unfold SendBurstTransfer.
  destruct (decide _); [intros e He; by apply elem_of_nil in He|].
  apply for_range_sent_on. intros i e He.
  unfold burst_body in He. destruct (slice _ _ _); simpl in He.
  - by apply elem_of_nil in He.
  - unfold SendBurstTransferPacket in He. destruct (decide _); simpl in He.
    + by apply elem_of_nil in He.
    + apply list_elem_of_singleton in He. by subst.
Qed.

Lemma packets_concat (data : list Z) (n : nat) (k : Z) :
  0 <= k ->
  concat (map (packet data) (seqZ k (Z.of_nat n))) =
    take (8 * n) (drop (Z.to_nat (k * 8)) data).
Proof.
  revert k. induction n as [|n IH]; intros k Hk.
  - by rewrite Nat.mul_0_r.
  - rewrite Nat2Z.inj_succ, seqZ_cons by lia. simpl.
    replace (Z.pred (Z.succ (Z.of_nat n))) with (Z.of_nat n) by lia.
    rewrite IH by lia. unfold packet.
    replace (Z.to_nat (Z.succ k * 8)) with (Z.to_nat (k * 8) + 8)%nat by lia.
    rewrite <- drop_drop.
    rewrite take_take_drop. f_equal. lia.
Qed.

Lemma take_seqZ (j n : nat) :
  (j <= n)%nat -> take j (seqZ 0 (Z.of_nat n)) = seqZ 0 (Z.of_nat j).
Proof.
  intros Hj.
  replace (Z.of_nat n) with (Z.of_nat j + Z.of_nat (n - j)) by lia.
  rewrite seqZ_app by lia. apply take_app_length'.
  rewrite length_seqZ. lia.
Qed.

(** The sends of a burst transfer of [8*k] bytes that completed are the
    first [j] packets of its program, for some [j <= min (k mod 256) 31],
    all taken; the call runs to the end of its program exactly when
    [j = min (k mod 256) 31]. *)
Lemma SendBurstTransfer_performed channel data k (env : nat -> fate) :
  len data = 8 * k ->
  exists j : nat,
    Z.of_nat j <= Z.min (k mod 256) 31 /\
    completed (SendBurstTransfer channel data) env =
      map (fun i => (ChWriteInTimeslot,
                     NewMessage MESG_BURST_DATA_ID
                       (burst_channelSeq channel (k mod 256) i :: packet data i)))
          (seqZ 0 (Z.of_nat j)) /\
    (forall n, (n < j)%nat -> env n = Taken) /\
    (Z.of_nat j = Z.min (k mod 256) 31 ->
       ends (SendBurstTransfer channel data) env =
         Ended (result (SendBurstTransfer channel data))) /\
    (Z.of_nat j < Z.min (k mod 256) 31 ->
       env j <> Taken /\
       forall r, ends (SendBurstTransfer channel data) env <> Ended r).
Proof.
  intros Hlen.
  destruct (SendBurstTransfer_script channel data k Hlen) as (n & Hn & Hsent & _ & _).
  unfold completed, ends, perform. rewrite Hsent.
  set (f := fun i : Z => _).
  destruct (perform_sends_prefix (map f (seqZ 0 (Z.of_nat n)))
              (result (SendBurstTransfer channel data)) env)
    as (j & Hj & Hfst & Htaken & Hend & Hstop).
  rewrite length_map, length_seqZ in Hj, Hend, Hstop.
  exists j. split; [lia|]. split.
  { rewrite Hfst, <- fmap_take. f_equal. apply take_seqZ. lia. }
  split; [done|]. split.
  - intros Hall. apply Hend. lia.
  - intros Hpart. apply Hstop. lia.
Qed.

(** A burst transfer never reorders or alters the data: whatever becomes
    of its sends, those that completed are burst-data messages sent on
    [dev.writeInTimeslot] with 9-byte payloads, and their data bytes, put
    end to end in the order sent, are the first bytes of [data], 8 for each
    completed send; when the call returns after a transfer of fewer than
    256 packets they are all of [data]. *)
Theorem SendBurstTransfer_carries_data (channel : Z) (data : list Z) (k : Z)
    (env : nat -> fate) :
  len data = 8 * k ->
  Forall (fun e => fst e = ChWriteInTimeslot /\ Type_ (snd e) = MESG_BURST_DATA_ID /\
                   len (Data (snd e)) = 9)
    (completed (SendBurstTransfer channel data) env) /\
  concat (map (fun e => packet_data (snd e))
            (completed (SendBurstTransfer channel data) env)) =
    take (8 * length (completed (SendBurstTransfer channel data) env)) data /\
  (ends (SendBurstTransfer channel data) env = Ended (Returned tt) -> k < 256 ->
   concat (map (fun e => packet_data (snd e))
             (completed (SendBurstTransfer channel data) env)) = data).
Proof.
  intros Hlen.
  assert (0 <= k) by (unfold len in Hlen; lia).
  pose proof (Z.mod_pos_bound k 256 ltac:(lia)).
  assert (k mod 256 <= k) by (apply Z.mod_le; lia).
  destruct (SendBurstTransfer_performed channel data k env Hlen)
    as (j & Hj & Hdone & _ & Hend & Hstop).
  rewrite Hdone.
  assert (concat (map (fun e : outbound * Message => packet_data (snd e))
            (map (fun i => (ChWriteInTimeslot,
                    NewMessage MESG_BURST_DATA_ID
                      (burst_channelSeq channel (k mod 256) i :: packet data i)))
               (seqZ 0 (Z.of_nat j)))) = take (8 * j) data) as Hcat.
  { rewrite map_map. unfold packet_data. cbn [snd Data drop].
    etransitivity; [apply (packets_concat data j 0); lia|]. done. }
  split; [|split].
  - apply Forall_map, Forall_forall. intros i Hi. simpl.
    apply list_elem_of_In, elem_of_seqZ in Hi.
    split; [done|]. split; [done|]. unfold len, packet in *. simpl.
    rewrite length_take, length_drop. lia.
  - rewrite Hcat, length_map, length_seqZ. f_equal. lia.
  - intros Hret Hk. rewrite Hcat.
    destruct (decide (Z.of_nat j = Z.min (k mod 256) 31)) as [Hall|Hpart].
    + rewrite (Hend Hall) in Hret.
      destruct (SendBurstTransfer_script channel data k Hlen) as (_ & _ & _ & _ & Hlarge).
      destruct (decide (k mod 256 <= 31)) as [Hs|Hs].
      * rewrite Z.mod_small in * by lia. apply take_ge. unfold len in Hlen. lia.
      * rewrite Hlarge in Hret by lia. discriminate.
    + exfalso. by apply (proj2 (Hstop ltac:(lia)) (Returned tt)).
Qed.

(** For a channel number below 32 the channel-sequence byte of a burst
    packet keeps the channel in its low 5 bits and the sequence field, a
    number from 0 to 7, in its high 3 bits. *)
Theorem burst_channelSeq_fields (channel packets i : Z) :
  0 <= channel < 32 ->
  0 <= burst_sequence packets i <= 7 /\
  Z.land (burst_channelSeq channel packets i) 31 = channel /\
  Z.shiftr (burst_channelSeq channel packets i) 5 = burst_sequence packets i.
Proof.
  intros Hc.
  assert (burst_sequence packets i ∈ [0; 1; 2; 3; 5; 6; 7]) as Hseq.
  { unfold burst_sequence, wrap8.
    pose proof (Z.mod_pos_bound ((i - 1) mod 256) 3 ltac:(lia)) as Hr.
    assert (((i - 1) mod 256) mod 3 = 0 \/ ((i - 1) mod 256) mod 3 = 1 \/
            ((i - 1) mod 256) mod 3 = 2) as Hcases by lia.
    repeat destruct (decide _); destruct Hcases as [Hm | [Hm | Hm]];
      rewrite ?Hm; simpl; repeat constructor. }
  assert (0 <= burst_sequence packets i <= 7) as Hrange.
  { repeat (apply elem_of_cons in Hseq as [->|Hseq]; [lia|]).
    by apply elem_of_nil in Hseq. }
  split; [done|]. unfold burst_channelSeq. unfold wrap8.
  rewrite Z.shiftl_mul_pow2 by lia. change (2 ^ 5) with 32.
  rewrite (Z.mod_small (_ * 32)) by lia.
  rewrite <- (Z.shiftl_mul_pow2 _ 5) by lia.
  split.
  - change 31 with (Z.ones 5).
    rewrite Z.land_lor_distr_l, !Z.land_ones by lia. change (2 ^ 5) with 32.
    rewrite Z.shiftl_mul_pow2 by lia. change (2 ^ 5) with 32.
    rewrite Z.mod_mul by lia. rewrite Z.mod_small by lia. apply Z.lor_0_r.
  - rewrite Z.shiftr_lor, Z.shiftr_shiftl_l by lia.
    rewrite Z.shiftr_div_pow2 by lia. change (2 ^ 5) with 32.
    rewrite Z.div_small by lia. simpl. apply Z.shiftl_0_r.
Qed.

(** How a burst transfer of [8*k] bytes ends.  At most
    [min (k mod 256) 31] of its sends complete.  The call returns exactly
    when [k mod 256 <= 31] and each of its [k mod 256] sends is taken.
    When its first send is not taken, as in [ant.go], where nothing
    receives from [dev.writeInTimeslot], no send completes and the call
    returns only for [k mod 256 = 0], when it has no send at all. *)
Theorem SendBurstTransfer_outcome (channel : Z) (data : list Z) (k : Z)
    (env : nat -> fate) :
  len data = 8 * k ->
  Z.of_nat (length (completed (SendBurstTransfer channel data) env))
    <= Z.min (k mod 256) 31 /\
  (ends (SendBurstTransfer channel data) env = Ended (Returned tt) <->
   k mod 256 <= 31 /\ forall n, Z.of_nat n < k mod 256 -> env n = Taken) /\
  (env 0%nat <> Taken ->
   completed (SendBurstTransfer channel data) env = [] /\
   (ends (SendBurstTransfer channel data) env = Ended (Returned tt) <-> k mod 256 = 0)).
Proof.
  intros Hlen.
  assert (0 <= k) by (unfold len in Hlen; lia).
  pose proof (Z.mod_pos_bound k 256 ltac:(lia)) as Hmod.
  destruct (SendBurstTransfer_script channel data k Hlen)
    as (n & Hn & Hsent & Hsmall & Hlarge).
  destruct (SendBurstTransfer_performed channel data k env Hlen)
    as (j & Hj & Hdone & Htaken & Hend & Hstop).
  assert (ends (SendBurstTransfer channel data) env = Ended (Returned tt) <->
          k mod 256 <= 31 /\ forall n, Z.of_nat n < k mod 256 -> env n = Taken) as Hret.
  { split.
    - intros Hr.
      destruct (decide (Z.of_nat j = Z.min (k mod 256) 31)) as [Hall|Hpart].
      + rewrite (Hend Hall) in Hr.
        destruct (decide (k mod 256 <= 31)) as [Hs|Hs].
        * split; [done|]. intros m Hm. apply Htaken. lia.
        * rewrite Hlarge in Hr by lia. discriminate.
      + exfalso. by apply (proj2 (Hstop ltac:(lia)) (Returned tt)).
    - intros [Hs Hall]. unfold ends, perform.
      rewrite perform_sends_taken.
      + simpl. by rewrite Hsmall.
      + intros m Hm. apply Hall. rewrite Hsent, length_map, length_seqZ in Hm. lia. }
  split; [|split; [done|]].
  - rewrite Hdone, length_map, length_seqZ. lia.
  - intros Hfirst.
    assert (j = 0%nat) as ->.
    { destruct j; [done|]. exfalso. apply Hfirst, Htaken. lia. }
    split; [by rewrite Hdone|].
    rewrite Hret. split.
    + intros [Hs Hall].
      destruct (decide (k mod 256 = 0)) as [|Hne]; [done|].
      exfalso. apply Hfirst, Hall. lia.
    + intros Hz. split; [lia|]. intros m Hm. lia.
Qed.

End CommandsMore.

(** [unit_payload_commands] on channel 1 and the data 1..8. *)
Lemma unit_payload_commands_witness :
  SendBroadcastData (H := xor_codec) 1 [1; 2; 3; 4; 5; 6; 7; 8] =
    ([(ChWrite, NewMessage 78 [1; 1; 2; 3; 4; 5; 6; 7; 8])], Returned tt) /\
  SendAcknowledgedData (H := xor_codec) 1 [1; 2; 3; 4; 5; 6; 7; 8] =
    ([(ChWriteInTimeslot, NewMessage 79 [1; 1; 2; 3; 4; 5; 6; 7; 8])], Returned tt) /\
  SendBurstTransferPacket (H := xor_codec) 1 [1; 2; 3; 4; 5; 6; 7; 8] =
    ([(ChWriteInTimeslot, NewMessage 80 [1; 1; 2; 3; 4; 5; 6; 7; 8])], Returned tt) /\
  SetNetworkKey (H0 := sample_constants) 1 [1; 2; 3; 4; 5; 6; 7; 8] =
    ([(ChWrite, NewMessage 70 [1; 1; 2; 3; 4; 5; 6; 7; 8])], Returned tt).
Proof.
  apply (unit_payload_commands (H := xor_codec) (H0 := sample_constants)
           1 [1; 2; 3; 4; 5; 6; 7; 8]).
  reflexivity.
Defined.

(** [uint16_fields_little_endian] on the device number 0x1234. *)
Lemma uint16_fields_little_endian_witness :
  exists lo hi,
    (0 <= lo < 256 /\ 0 <= hi < 256 /\ uint16_le lo hi = 4660) /\
    SetChannelId (H0 := sample_constants) 1 4660 120 5 =
      ([(ChWrite, NewMessage 81 [1; lo; hi; 120; 5])], Returned tt) /\
    SetChannelPeriod (H0 := sample_constants) 1 4660 =
      ([(ChWrite, NewMessage 67 [1; lo; hi])], Returned tt) /\
    AddChannelID (H0 := sample_constants) 1 4660 120 5 0 =
      ([(ChWrite, NewMessage 89 [1; lo; hi; 120; 5; 0])], Returned tt).
Proof.
  apply (uint16_fields_little_endian (H0 := sample_constants) 1 4660 120 5 0).
  lia.
Defined.

(** [commands_use_one_channel] on a burst transfer of two packets. *)
Lemma commands_use_one_channel_witness :
  ChWriteInTimeslot = channel_of (CSendBurstTransfer 2 (replicate 16 0)).
Proof.
  apply (commands_use_one_channel (H := xor_codec) (H0 := sample_constants)
           (CSendBurstTransfer 2 (replicate 16 0)) ChWriteInTimeslot
           (NewMessage 80 [2; 0; 0; 0; 0; 0; 0; 0; 0])).
  vm_compute. by left.
Defined.

(** [SendBurstTransfer_carries_data] on 16 bytes, every send being
    taken. *)
Lemma SendBurstTransfer_carries_data_witness :
  Forall (fun e => fst e = ChWriteInTimeslot /\ Type_ (snd e) = 80 /\
                   len (Data (snd e)) = 9)
    (completed (SendBurstTransfer (H := xor_codec) 2 (seqZ 1 16)) all_taken) /\
  concat (map (fun e => packet_data (snd e))
            (completed (SendBurstTransfer (H := xor_codec) 2 (seqZ 1 16)) all_taken)) =
    take (8 * length (completed (SendBurstTransfer (H := xor_codec) 2 (seqZ 1 16)) all_taken))
      (seqZ 1 16) /\
  (ends (SendBurstTransfer (H := xor_codec) 2 (seqZ 1 16)) all_taken = Ended (Returned tt) ->
   2 < 256 ->
   concat (map (fun e => packet_data (snd e))
             (completed (SendBurstTransfer (H := xor_codec) 2 (seqZ 1 16)) all_taken)) =
     seqZ 1 16).
Proof.
  apply (SendBurstTransfer_carries_data (H := xor_codec) 2 (seqZ 1 16) 2 all_taken).
  reflexivity.
Defined.

(** [burst_channelSeq_fields] on the last of 8 packets on channel 2. *)
Lemma burst_channelSeq_fields_witness :
  0 <= burst_sequence 8 7 <= 7 /\
  Z.land (burst_channelSeq 2 8 7) 31 = 2 /\
  Z.shiftr (burst_channelSeq 2 8 7) 5 = burst_sequence 8 7.
Proof.
  apply (burst_channelSeq_fields 2 8 7). lia.
Defined.

(** [SendBurstTransfer_outcome] on 2 packets (16 bytes) with no receiver
    on [dev.writeInTimeslot]. *)
Lemma SendBurstTransfer_outcome_witness :
  Z.of_nat (length (completed (SendBurstTransfer (H := xor_codec) 2 (replicate 16 0))
                      no_receiver))
    <= Z.min (2 mod 256) 31 /\
  (ends (SendBurstTransfer (H := xor_codec) 2 (replicate 16 0)) no_receiver =
     Ended (Returned tt) <->
   2 mod 256 <= 31 /\ forall n, Z.of_nat n < 2 mod 256 -> no_receiver n = Taken) /\
  (no_receiver 0%nat <> Taken ->
   completed (SendBurstTransfer (H := xor_codec) 2 (replicate 16 0)) no_receiver = [] /\
   (ends (SendBurstTransfer (H := xor_codec) 2 (replicate 16 0)) no_receiver =
      Ended (Returned tt) <-> 2 mod 256 = 0)).
Proof.
  apply (SendBurstTransfer_outcome (H := xor_codec) 2 (replicate 16 0) 2 no_receiver).
  vm_compute. reflexivity.
Defined.

Section EndToEnd.
Context `{Codec}.



End EndToEnd.


(** [SetSearchWaveform_accepts] on the waveform 316 (0x013C), its send
    being taken. *)
Lemma SetSearchWaveform_accepts_witness :
  (SetSearchWaveform (H := xor_codec) 1 316 = ([], Panicked PanicSearchWaveform) <->
   316 <> 97 /\ 316 <> 316) /\
  (316 = 97 \/ 316 = 316 ->
   exists lo hi,
     (0 <= lo < 256 /\ 0 <= hi < 256 /\ uint16_le lo hi = 316) /\
     sent (SetSearchWaveform (H := xor_codec) 1 316) =
       [(ChWrite, NewMessage 71 [1; lo; hi])] /\
     perform (SetSearchWaveform (H := xor_codec) 1 316) all_taken =
       ([(ChWrite, NewMessage 71 [1; lo; hi])], Ended (Returned tt))).
Proof. apply (SetSearchWaveform_accepts (H := xor_codec) 1 316 all_taken). Defined.
